(** * The account router of the banking application, embedded in Rocq

    Source: [src/server/routers/account.ts].  The router exposes four tRPC
    procedures ([createAccount], [getAccounts], [fundAccount],
    [getTransactions]) over two database tables.  Every handler is an
    [async] function; each [await db...] is one atomic access to the store,
    and handlers of different requests may interleave between two awaits.

    The file is organised as follows:
    - JavaScript values the handlers compute with (numbers, decimal strings);
    - the store, its rows and the queries the handlers issue;
    - handlers as resumable programs ([Prog]), run to completion by [run]
      and interleaved by [step];
    - the four procedures, transcribed statement by statement;
    - the properties. *)

From Stdlib Require Import ZArith List String Ascii Bool Lia.
From Stdlib Require Import Permutation Sorted.
From Stdlib Require Import Floats.
From Stdlib Require QArith.
Import ListNotations.

Local Open Scope Z_scope.

(* ===================================================================== *)
(** ** JavaScript values *)
(* ===================================================================== *)

Module Js.

(** A JS [number] is an IEEE 754 binary64 value: Rocq's primitive [float]. *)
Definition number := float.

(** The decimal digit [d] (0..9) as a character. *)
Definition digitChar (d : Z) : ascii := ascii_of_nat (48 + Z.to_nat d).

Definition isDigit (c : ascii) : bool :=
  let n := nat_of_ascii c in (48 <=? n)%nat && (n <=? 57)%nat.

(** Decimal digits of a non-negative integer, most significant first.
    [fuel] bounds the number of divisions by ten. *)
Fixpoint digitsOf (fuel : nat) (n : Z) (acc : string) : string :=
  let acc' := String (digitChar (n mod 10)) acc in
  match fuel with
  | O => acc'
  | S fuel' => if n <? 10 then acc' else digitsOf fuel' (n / 10) acc'
  end.

(** [Number.prototype.toString()] on an integer-valued number below 1e21:
    the plain decimal numeral, with a minus sign when negative. *)
Definition integerToString (n : Z) : string :=
  if n <? 0
  then String "-"%char (digitsOf (S (Z.to_nat (Z.log2 (- n)))) (- n) EmptyString)
  else digitsOf (S (Z.to_nat (Z.log2 n))) n EmptyString.

(** [parseFloat(x.toString())].  [toString] prints the shortest numeral that
    reads back as [x], prints both zeros as ["0"], and prints ["Infinity"],
    ["-Infinity"] and ["NaN"], all of which [parseFloat] reads back: the
    composite is the identity except that it maps [-0] to [+0]. *)
Definition parseFloat_toString (x : number) : number :=
  if PrimFloat.is_zero x then PrimFloat.zero else x.

(** What [crypto.randomInt(min, max)] may return: an integer [r] with
    [min <= r < max]. *)
Definition randomInt_returns (min max r : Z) : Prop := min <= r < max.

End Js.

(* ===================================================================== *)
(** ** The store *)
(* ===================================================================== *)

Definition Timestamp := Z.

(** [z.enum(["checking", "savings"])] *)
Inductive AccountType := checking | savings.

Definition AccountType_eqb (a b : AccountType) : bool :=
  match a, b with
  | checking, checking | savings, savings => true
  | _, _ => false
  end.

Definition AccountType_name (t : AccountType) : string :=
  match t with checking => "checking" | savings => "savings" end.

(** A row of table [accounts], with the columns the router reads or writes. *)
Record Account := mkAccount {
  acc_id : Z;
  acc_userId : Z;
  acc_accountNumber : string;
  acc_accountType : AccountType;
  acc_balance : Js.number;
  acc_status : string
}.

(** A row of table [transactions]. *)
Record Transaction := mkTransaction {
  tx_id : Z;
  tx_accountId : Z;
  tx_type : string;
  tx_amount : Js.number;
  tx_description : string;
  tx_status : string;
  tx_createdAt : Timestamp;
  tx_processedAt : Timestamp
}.

(** The two tables, rows in insertion order, and the id counters. *)
Record Store := mkStore {
  accounts : list Account;
  transactions : list Transaction;
  accountSeq : Z;
  transactionSeq : Z
}.

Definition emptyStore : Store := mkStore [] [] 0 0.

(** One awaited database call: it reads or writes the store atomically and
    yields a value. *)
Definition Query (X : Type) : Type := Store -> X * Store.

(** The values object of [db.insert(accounts).values({...})]. *)
Record AccountValues := mkAccountValues {
  av_userId : Z;
  av_accountNumber : string;
  av_accountType : AccountType;
  av_balance : Js.number;
  av_status : string
}.

(** The values object of [db.insert(transactions).values({...})]. *)
Record TransactionValues := mkTransactionValues {
  tv_accountId : Z;
  tv_type : string;
  tv_amount : Js.number;
  tv_description : string;
  tv_status : string;
  tv_processedAt : Timestamp
}.

Module Db.

(** Stable insertion sort: [ORDER BY] a key, rows with equal keys left in
    table order. *)
Fixpoint insertBy {T : Type} (le : T -> T -> bool) (x : T) (l : list T) : list T :=
  match l with
  | [] => [x]
  | y :: r => if le x y then x :: l else y :: insertBy le x r
  end.

Fixpoint sortBy {T : Type} (le : T -> T -> bool) (l : list T) : list T :=
  match l with
  | [] => []
  | x :: r => insertBy le x (sortBy le r)
  end.

(** [.orderBy(transactions.createdAt)]: ascending. *)
Definition asc_createdAt (a b : Transaction) : bool :=
  tx_createdAt a <=? tx_createdAt b.

(** [.orderBy(desc(transactions.createdAt))] *)
Definition desc_createdAt (a b : Transaction) : bool :=
  tx_createdAt b <=? tx_createdAt a.

(** [db.select().from(accounts).where(p).get()]: the first matching row. *)
Definition selectAccount (p : Account -> bool) : Query (option Account) :=
  fun s => (find p (accounts s), s).

(** [db.select().from(accounts).where(p)]: all matching rows. *)
Definition selectAccounts (p : Account -> bool) : Query (list Account) :=
  fun s => (filter p (accounts s), s).

(** [db.select().from(transactions).where(p).orderBy(o)] *)
Definition selectTransactions (p : Transaction -> bool)
    (o : Transaction -> Transaction -> bool) : Query (list Transaction) :=
  fun s => (sortBy o (filter p (transactions s)), s).

(** [db.select().from(transactions).where(p).orderBy(o).limit(1).get()] *)
Definition selectFirstTransaction (p : Transaction -> bool)
    (o : Transaction -> Transaction -> bool) : Query (option Transaction) :=
  fun s => (hd_error (sortBy o (filter p (transactions s))), s).

(** Modelled from the spec: the column defaults of the two tables (the
    schema module [@/lib/db/schema] is not part of the sources).  The spec
    gives [id] as "unique identifier, assigned at creation, never reused"
    and, for transactions, "unique, monotonically creation-ordered": a
    counter per table.  [createdAt] is stamped by the store when the row is
    inserted, from the store's clock reading [now].
    [db.insert(accounts).values(v)]: *)
Definition insertAccount (v : AccountValues) : Query unit :=
  fun s =>
    let id := accountSeq s + 1 in
    (tt, mkStore
           (accounts s ++ [mkAccount id (av_userId v) (av_accountNumber v)
                             (av_accountType v) (av_balance v) (av_status v)])
           (transactions s) id (transactionSeq s)).

(** [db.insert(transactions).values(v)], the store's clock reading [now];
    [id] and [createdAt] are the column defaults described above. *)
Definition insertTransaction (now : Timestamp) (v : TransactionValues) : Query unit :=
  fun s =>
    let id := transactionSeq s + 1 in
    (tt, mkStore
           (accounts s)
           (transactions s ++ [mkTransaction id (tv_accountId v) (tv_type v)
                                 (tv_amount v) (tv_description v) (tv_status v)
                                 now (tv_processedAt v)])
           (accountSeq s) id).

(** [db.update(accounts).set({ balance }).where(p)] *)
Definition setBalance (balance : Js.number) (a : Account) : Account :=
  mkAccount (acc_id a) (acc_userId a) (acc_accountNumber a) (acc_accountType a)
            balance (acc_status a).

Definition updateBalance (p : Account -> bool) (balance : Js.number) : Query unit :=
  fun s =>
    (tt, mkStore (map (fun a => if p a then setBalance balance a else a) (accounts s))
                 (transactions s) (accountSeq s) (transactionSeq s)).

End Db.

(* ===================================================================== *)
(** ** Handlers as resumable programs *)
(* ===================================================================== *)

Inductive ErrorCode := CONFLICT | INTERNAL_SERVER_ERROR | BAD_REQUEST | NOT_FOUND.

(** What a procedure call can fail with: a [TRPCError] thrown by the
    handler, or the input rejected by the procedure's zod schema before the
    handler runs. *)
Inductive Failure :=
| TRPCError (code : ErrorCode) (message : string)
| ZodError.

(** A handler between two awaits: finished with a value, finished with an
    exception, still looping when its fuel ran out, or suspended on a
    database call with the rest of the handler as continuation. *)
Inductive Prog (A : Type) : Type :=
| Return (a : A)
| Throw (e : Failure)
| Spin
| Await (X : Type) (q : Query X) (k : X -> Prog A).

Arguments Return {A} a.
Arguments Throw {A} e.
Arguments Spin {A}.
Arguments Await {A X} q k.

Notation "x <- 'await' q ;; k" := (Await q (fun x => k))
  (at level 61, q at next level, right associativity, only parsing).
Notation "'await' q ;; k" := (Await q (fun _ => k))
  (at level 61, q at next level, right associativity, only parsing).

Fixpoint bind {A B : Type} (p : Prog A) (f : A -> Prog B) : Prog B :=
  match p with
  | Return a => f a
  | Throw e => Throw e
  | Spin => Spin
  | Await q k => Await q (fun x => bind (k x) f)
  end.

Inductive Outcome (A : Type) : Type :=
| Ok (a : A)
| Err (e : Failure)
| Diverges.

Arguments Ok {A} a.
Arguments Err {A} e.
Arguments Diverges {A}.

(** A handler run alone, from its first statement to its end. *)
Fixpoint run {A : Type} (p : Prog A) (s : Store) : Outcome A * Store :=
  match p with
  | Return a => (Ok a, s)
  | Throw e => (Err e, s)
  | Spin => (Diverges, s)
  | Await q k => let (x, s') := q s in run (k x) s'
  end.

(** Handlers of concurrent requests over one store: a step resumes one
    suspended handler, performs its database call, and suspends it again at
    its next await (or finishes it). *)
Inductive step {A : Type} : Store * list (Prog A) -> Store * list (Prog A) -> Prop :=
| step_await (s s' : Store) (before after : list (Prog A))
    (X : Type) (q : Query X) (k : X -> Prog A) (x : X) :
    q s = (x, s') ->
    step (s, before ++ Await q k :: after) (s', before ++ k x :: after).

Inductive steps {A : Type} : Store * list (Prog A) -> Store * list (Prog A) -> Prop :=
| steps_refl c : steps c c
| steps_step c1 c2 c3 : step c1 c2 -> steps c2 c3 -> steps c1 c3.

(** Replace element [i] of a list. *)
Fixpoint setNth {T : Type} (i : nat) (x : T) (l : list T) : list T :=
  match l, i with
  | [], _ => []
  | _ :: r, O => x :: r
  | y :: r, S i' => y :: setNth i' x r
  end.

(** Resume handler number [i]; [None] when it is not suspended. *)
Definition resume {A : Type} (i : nat) (c : Store * list (Prog A))
  : option (Store * list (Prog A)) :=
  match nth_error (snd c) i with
  | Some (Await q k) => let (x, s') := q (fst c) in Some (s', setNth i (k x) (snd c))
  | _ => None
  end.

(** Follow a schedule: the list of handlers to resume, in order. *)
Fixpoint schedule {A : Type} (turns : list nat) (c : Store * list (Prog A))
  : option (Store * list (Prog A)) :=
  match turns with
  | [] => Some c
  | i :: rest => match resume i c with
                 | Some c' => schedule rest c'
                 | None => None
                 end
  end.

(* ===================================================================== *)
(** ** The router *)
(* ===================================================================== *)

(** [.input(schema).mutation(handler)]: the handler runs only on an input
    the schema accepts. *)
Definition procedure {I A : Type} (schema : I -> bool) (handler : I -> Prog A)
    (input : I) : Prog A :=
  if schema input then handler input else Throw ZodError.

(** The bounds of [crypto.randomInt(1000000000, 9999999999)]. *)
Definition accountNumberMin : Z := 1000000000.
Definition accountNumberMax : Z := 9999999999.

(** [generateAccountNumber()], given the integer [r] that
    [crypto.randomInt] returned. *)
Definition generateAccountNumber (r : Z) : string := Js.integerToString r.

Definition byOwnerAndType (user : Z) (t : AccountType) (a : Account) : bool :=
  (acc_userId a =? user) && AccountType_eqb (acc_accountType a) t.

Definition byAccountNumber (n : string) (a : Account) : bool :=
  String.eqb (acc_accountNumber a) n.

Definition byId (id : Z) (a : Account) : bool := acc_id a =? id.

Definition byIdAndOwner (id user : Z) (a : Account) : bool :=
  (acc_id a =? id) && (acc_userId a =? user).

Definition byOwner (user : Z) (a : Account) : bool := acc_userId a =? user.

Definition ofAccount (id : Z) (t : Transaction) : bool := tx_accountId t =? id.

(** The loop [while (!isUnique) { ... }] of [createAccount].  [draws i] is
    what the [i]-th call of [crypto.randomInt] returns; the loop is at its
    [i]-th iteration.  It has no exit other than a free number: when [fuel]
    iterations did not find one it is still running. *)
Fixpoint uniqueAccountNumber (fuel : nat) (draws : nat -> Z) (i : nat) : Prog string :=
  match fuel with
  | O => Spin
  | S fuel' =>
      let accountNumber := generateAccountNumber (draws i) in
      existing <- await Db.selectAccount (byAccountNumber accountNumber) ;;
      match existing with
      | None => Return accountNumber
      | Some _ => uniqueAccountNumber fuel' draws (S i)
      end
  end.

(** The handler of [createAccount]. *)
Definition createAccount (user : Z) (draws : nat -> Z) (fuel : nat)
    (accountType : AccountType) : Prog Account :=
  existingAccount <- await Db.selectAccount (byOwnerAndType user accountType) ;;
  match existingAccount with
  | Some _ =>
      Throw (TRPCError CONFLICT
               ("You already have a " ++ AccountType_name accountType ++ " account"))
  | None =>
      bind (uniqueAccountNumber fuel draws 0) (fun accountNumber =>
        await Db.insertAccount
                (mkAccountValues user accountNumber accountType PrimFloat.zero "active") ;;
        account <- await Db.selectAccount (byAccountNumber accountNumber) ;;
        match account with
        | None => Throw (TRPCError INTERNAL_SERVER_ERROR "Failed to create account")
        | Some account => Return account
        end)
  end.

(** The handler of [getAccounts]. *)
Definition getAccounts (user : Z) : Prog (list Account) :=
  userAccounts <- await Db.selectAccounts (byOwner user) ;;
  Return userAccounts.

Inductive FundingType := card | bank.

Definition FundingType_name (t : FundingType) : string :=
  match t with card => "card" | bank => "bank" end.

Record FundingSource := mkFundingSource {
  fs_type : FundingType;
  fs_accountNumber : string;
  fs_routingNumber : option string
}.

(** The input object of [fundAccount].  [accountId] is [z.number()]; a
    number that is not an integer equals no row id, so it behaves like an
    id that is not in the table, and ids are taken in [Z]. *)
Record FundInput := mkFundInput {
  fi_accountId : Z;
  fi_amount : Js.number;
  fi_fundingSource : FundingSource
}.

(** [!data.routingNumber]: absent, or the empty string. *)
Definition routingNumberMissing (r : option string) : bool :=
  match r with
  | None => true
  | Some EmptyString => true
  | Some _ => false
  end.

(** The zod schema of [fundAccount]: [amount] is [.gt(0)], and a bank
    source needs a routing number. *)
Definition fundAccountSchema (input : FundInput) : bool :=
  (0 <? fi_amount input)%float
  && match fs_type (fi_fundingSource input) with
     | bank => negb (routingNumberMissing (fs_routingNumber (fi_fundingSource input)))
     | card => true
     end.

Record FundResult := mkFundResult {
  fr_transaction : option Transaction;
  fr_newBalance : Js.number
}.

(** The handler of [fundAccount].  [dbNow] is the store's clock when the
    transaction row is inserted, [jsNow] is [new Date()]. *)
Definition fundAccount (user : Z) (dbNow jsNow : Timestamp) (input : FundInput)
  : Prog FundResult :=
  let amount := Js.parseFloat_toString (fi_amount input) in
  if (amount <=? 0)%float
  then Throw (TRPCError BAD_REQUEST "Funding amount must be greater than zero")
  else
    account <- await Db.selectAccount (byIdAndOwner (fi_accountId input) user) ;;
    match account with
    | None => Throw (TRPCError NOT_FOUND "Account not found")
    | Some account =>
        if negb (String.eqb (acc_status account) "active")
        then Throw (TRPCError BAD_REQUEST "Account is not active")
        else
          await Db.insertTransaction dbNow
                  (mkTransactionValues (fi_accountId input) "deposit" amount
                     ("Funding from " ++ FundingType_name (fs_type (fi_fundingSource input)))
                     "completed" jsNow) ;;
          transaction <- await Db.selectFirstTransaction
                                 (ofAccount (fi_accountId input)) Db.asc_createdAt ;;
          let newBalance := (acc_balance account + amount)%float in
          await Db.updateBalance (byId (fi_accountId input)) newBalance ;;
          Return (mkFundResult transaction newBalance)
    end.

(** [{ ...transaction, accountType: accountDetails?.accountType }] *)
Record EnrichedTransaction := mkEnriched {
  et_transaction : Transaction;
  et_accountType : option AccountType
}.

(** The loop [for (const transaction of accountTransactions)] of
    [getTransactions]; [enriched] is the array built so far. *)
Fixpoint enrichTransactions (accountTransactions : list Transaction)
    (enriched : list EnrichedTransaction) : Prog (list EnrichedTransaction) :=
  match accountTransactions with
  | [] => Return enriched
  | transaction :: rest =>
      accountDetails <- await Db.selectAccount (byId (tx_accountId transaction)) ;;
      enrichTransactions rest
        (enriched ++ [mkEnriched transaction (option_map acc_accountType accountDetails)])
  end.

(** The handler of [getTransactions]. *)
Definition getTransactions (user : Z) (accountId : Z) : Prog (list EnrichedTransaction) :=
  account <- await Db.selectAccount (byIdAndOwner accountId user) ;;
  match account with
  | None => Throw (TRPCError NOT_FOUND "Account not found")
  | Some _ =>
      accountTransactions <- await Db.selectTransactions (ofAccount accountId)
                                     Db.desc_createdAt ;;
      enrichTransactions accountTransactions []
  end.

(** The four procedures as the router exposes them. *)
Definition createAccountProcedure (user : Z) (draws : nat -> Z) (fuel : nat) :=
  procedure (fun _ : AccountType => true) (createAccount user draws fuel).

Definition fundAccountProcedure (user : Z) (dbNow jsNow : Timestamp) :=
  procedure fundAccountSchema (fundAccount user dbNow jsNow).

Definition getTransactionsProcedure (user : Z) :=
  procedure (fun _ : Z => true) (getTransactions user).

(** A request served by the router, with what the environment supplies to
    it: the authenticated user, the random draws, the clock readings. *)
Inductive Request :=
| CreateAccount (user : Z) (draws : nat -> Z) (fuel : nat) (accountType : AccountType)
| GetAccounts (user : Z)
| FundAccount (user : Z) (dbNow jsNow : Timestamp) (input : FundInput)
| GetTransactions (user : Z) (accountId : Z).

(** The store after a request was served alone. *)
Definition serve (s : Store) (r : Request) : Store :=
  match r with
  | CreateAccount user draws fuel accountType =>
      snd (run (createAccountProcedure user draws fuel accountType) s)
  | GetAccounts user => snd (run (getAccounts user) s)
  | FundAccount user dbNow jsNow input =>
      snd (run (fundAccountProcedure user dbNow jsNow input) s)
  | GetTransactions user accountId =>
      snd (run (getTransactionsProcedure user accountId) s)
  end.

(** The store after a sequence of requests, each served before the next
    one starts. *)
Definition serveAll (rs : list Request) : Store := fold_left serve rs emptyStore.

(** A transaction of account [id] with status ['completed'] and type
    ['deposit']. *)
Definition completedDeposit (id : Z) (t : Transaction) : bool :=
  (tx_accountId t =? id) && String.eqb (tx_status t) "completed"
  && String.eqb (tx_type t) "deposit".

(** The running total the handlers keep as the balance: the amounts of the
    account's completed deposits added one at a time, in creation order,
    starting from 0, each addition rounded to a double as [account.balance +
    amount] is.  This is not the sum of the amounts: a different order, or
    exact arithmetic, gives another value (see [exactTotal]). *)
Definition runningTotal (s : Store) (id : Z) : Js.number :=
  fold_left PrimFloat.add
    (map tx_amount (filter (completedDeposit id) (transactions s))) PrimFloat.zero.

(** The rational number a finite double stands for; [None] for the
    infinities and NaN. *)
Definition exactValue (x : Js.number) : option QArith_base.Q :=
  match Prim2SF x with
  | S754_zero _ => Some (QArith_base.inject_Z 0)
  | S754_finite negative mantissa exponent =>
      Some (QArith_base.Qmult
              (QArith_base.inject_Z (if negative then Z.neg mantissa else Z.pos mantissa))
              (QArith_base.Qpower (QArith_base.inject_Z 2) exponent))
  | _ => None
  end.

(** The sum of [amount] over the account's completed deposits, as a
    rational number: exact, and the same in whatever order it is taken. *)
Definition exactTotal (s : Store) (id : Z) : option QArith_base.Q :=
  fold_left
    (fun total t =>
       match total, exactValue (tx_amount t) with
       | Some q, Some v => Some (QArith_base.Qplus q v)
       | _, _ => None
       end)
    (filter (completedDeposit id) (transactions s))
    (Some (QArith_base.inject_Z 0)).

(** Every balance is the exact sum of the account's completed deposits. *)
Definition balancesAreExactSums (s : Store) : bool :=
  forallb
    (fun a =>
       match exactValue (acc_balance a), exactTotal s (acc_id a) with
       | Some b, Some total => QArith_base.Qeq_bool b total
       | _, _ => false
       end)
    (accounts s).

(* ===================================================================== *)
(** ** Predicates of the statements, and scenarios *)
(* ===================================================================== *)

(** The primary key of table [accounts]: no two rows share an [id]. *)
Definition uniqueIds (s : Store) : Prop := NoDup (map acc_id (accounts s)).

(** No two accounts share an account number. *)
Definition uniqueAccountNumbers (s : Store) : Prop :=
  NoDup (map acc_accountNumber (accounts s)).

(** No owner has two accounts of one type. *)
Definition oneAccountPerType (s : Store) : Prop :=
  NoDup (map (fun a => (acc_userId a, acc_accountType a)) (accounts s)).

(** No account has id [id]. *)
Definition noSuchAccount (s : Store) (id : Z) : Prop :=
  forall a, In a (accounts s) -> acc_id a <> id.

(** The account with id [id] belongs to somebody other than [user]. *)
Definition ownedByAnother (s : Store) (id user : Z) : Prop :=
  exists a, In a (accounts s) /\ acc_id a = id /\ acc_userId a <> user.

(** The number drawn at iteration [i] is already some account's number. *)
Definition taken (s : Store) (draws : nat -> Z) (i : nat) : Prop :=
  find (byAccountNumber (generateAccountNumber (draws i))) (accounts s) <> None.

(** What the balance invariant rests on: every account and every
    transaction refers to an account id the counter has already issued. *)
Definition idsIssued (s : Store) : Prop :=
  Forall (fun a => acc_id a <= accountSeq s) (accounts s)
  /\ Forall (fun t => tx_accountId t <= accountSeq s) (transactions s).

(** Every balance is the running total of the account's completed
    deposits. *)
Definition balancesMatch (s : Store) : Prop :=
  Forall (fun a => acc_balance a = runningTotal s (acc_id a)) (accounts s).

(** The row a funding of a schema-accepted [input] inserts into store [s]. *)
Definition depositRow (dbNow jsNow : Timestamp) (input : FundInput) (s : Store)
  : Transaction :=
  mkTransaction (transactionSeq s + 1) (fi_accountId input) "deposit"
    (fi_amount input)
    ("Funding from " ++ FundingType_name (fs_type (fi_fundingSource input)))
    "completed" dbNow jsNow.

(** The columns of an account that no procedure writes after creation. *)
Definition accountIdentity (a : Account) : Z * Z * string * AccountType * string :=
  (acc_id a, acc_userId a, acc_accountNumber a, acc_accountType a, acc_status a).

(** The number a decimal numeral denotes: each character counts for its
    distance from ["0"], weighted by its position. *)
Fixpoint decimalValue (numeral : string) : Z :=
  match numeral with
  | EmptyString => 0
  | String c rest =>
      (Z.of_nat (nat_of_ascii c) - 48) * 10 ^ Z.of_nat (String.length rest)
      + decimalValue rest
  end.

(** Every transaction is a completed deposit of a positive amount into an
    account of the store. *)
Definition depositsOnly (s : Store) : Prop :=
  Forall (fun t =>
            tx_type t = "deposit"%string
            /\ tx_status t = "completed"%string
            /\ (0 <? tx_amount t)%float = true
            /\ exists a, In a (accounts s) /\ acc_id a = tx_accountId t)
         (transactions s).

(** Rows sorted by [createdAt], most recent first. *)
Definition newestFirst (l : list Transaction) : Prop :=
  StronglySorted (fun x y => tx_createdAt y <= tx_createdAt x) l.

(** A store in which one account holds the number 1234567890, and a random
    source that keeps drawing that number. *)
Definition storeHolding1234567890 : Store :=
  mkStore [mkAccount 1 1 "1234567890" checking 0%float "active"] [] 1 0.

Definition alwaysDraws1234567890 : nat -> Z := fun _ => 1234567890.

(** User 7 opens a checking account; the draw is 1234567890. *)
Definition aliceOpens : Request :=
  CreateAccount 7 (fun _ => 1234567890) 1 checking.

Definition storeOpened : Store := serveAll [aliceOpens].

(** A card funding of account 1. *)
Definition cardFunding (amount : Js.number) : FundInput :=
  mkFundInput 1 amount (mkFundingSource card "4111111111111111" None).

(** The account funded once, with 100 at time 10. *)
Definition storeFundedOnce : Store :=
  serveAll [aliceOpens; FundAccount 7 10 10 (cardFunding 100%float)].

(** The account funded twice: 100 at time 10, then 50 at time 20. *)
Definition storeFundedTwice : Store :=
  serveAll [aliceOpens; FundAccount 7 10 10 (cardFunding 100%float);
            FundAccount 7 20 20 (cardFunding 50%float)].

(** The account as its owner found it after it was deactivated. *)
Definition storeInactive : Store :=
  mkStore [mkAccount 1 7 "1234567890" checking 100%float "inactive"]
          (transactions storeFundedOnce) 1 1.

(** The account funded three times, at times 10, 20 and 30, with the
    doubles that 0.1, 0.2 and 0.3 denote. *)
Definition storeOfTenths : Store :=
  serveAll [aliceOpens;
            FundAccount 7 10 10 (cardFunding 0x1.999999999999ap-4%float);
            FundAccount 7 20 20 (cardFunding 0x1.999999999999ap-3%float);
            FundAccount 7 30 30 (cardFunding 0x1.3333333333333p-2%float)].

(** The account funded with 2^53, then with 1 twice. *)
Definition storeOfLargeDeposit : Store :=
  serveAll [aliceOpens;
            FundAccount 7 10 10 (cardFunding 9007199254740992%float);
            FundAccount 7 20 20 (cardFunding 1%float);
            FundAccount 7 30 30 (cardFunding 1%float)].

(** The amounts of the entries [getTransactions] returns, added in the
    order it returns them. *)
Definition totalAsListed (s : Store) (user accountId : Z) : option Js.number :=
  match fst (run (getTransactionsProcedure user accountId) s) with
  | Ok entries =>
      Some (fold_left PrimFloat.add
              (map (fun e => tx_amount (et_transaction e)) entries) PrimFloat.zero)
  | _ => None
  end.

(** Two fundings of 100 each, of the freshly opened account, arriving
    together. *)
Definition twoFundings : list (Prog FundResult) :=
  [fundAccountProcedure 7 10 10 (cardFunding 100%float);
   fundAccountProcedure 7 10 10 (cardFunding 100%float)].

(** The two handlers taking turns at each await. *)
Definition takingTurns : list nat := [0; 1; 0; 1; 0; 1; 0; 1]%nat.

(* ===================================================================== *)
(** ** The authentication router *)
(* ===================================================================== *)

(** Source: [src/server/routers/auth.ts], procedures [signup], [login] and
    [logout] over the tables [users] and [sessions].  The handlers are
    served one at a time here: a handler is a function of the store that
    returns its outcome and the store it leaves. *)
Module Auth.

(** A JS string, as the sequence of its UTF-16 code units. *)
Definition Text := list Z.

(** The text of an ASCII literal of the source. *)
Definition ofAscii (s : string) : Text :=
  map (fun c => Z.of_nat (nat_of_ascii c)) (list_ascii_of_string s).

(** [a === b] on strings. *)
Fixpoint Text_eqb (a b : Text) : bool :=
  match a, b with
  | [], [] => true
  | x :: a', y :: b' => (x =? y) && Text_eqb a' b'
  | _, _ => false
  end.

(** [s.endsWith(suffix)] *)
Definition endsWith (s suffix : Text) : bool :=
  Text_eqb (skipn (List.length s - List.length suffix) s) suffix.

(** The character classes of the regular expressions: [[A-Z]], [[a-z]],
    [[0-9]] (which is [\d]). *)
Definition isUpper (c : Z) : bool := (65 <=? c) && (c <=? 90).
Definition isLower (c : Z) : bool := (97 <=? c) && (c <=? 122).
Definition isDigit (c : Z) : bool := (48 <=? c) && (c <=? 57).
Definition isAlnum (c : Z) : bool := isUpper c || isLower c || isDigit c.

(** The code units [String.prototype.trim] strips: white space and line
    terminators. *)
Definition isWhiteSpace (c : Z) : bool :=
  (c =? 9) || (c =? 10) || (c =? 11) || (c =? 12) || (c =? 13) || (c =? 32)
  || (c =? 160) || (c =? 5760) || ((8192 <=? c) && (c <=? 8202))
  || (c =? 8232) || (c =? 8233) || (c =? 8239) || (c =? 8287) || (c =? 12288)
  || (c =? 65279).

Fixpoint trimStart (s : Text) : Text :=
  match s with
  | c :: rest => if isWhiteSpace c then trimStart rest else s
  | [] => []
  end.

(** [s.trim()] *)
Definition trim (s : Text) : Text := rev (trimStart (rev (trimStart s))).

(** What a [Date] object answers: its time value, and the year, month and
    day of the month in local time. *)
Record DateFields := mkDate {
  timeValue : Z;
  fullYear : Z;
  month : Z;
  date : Z
}.

(** A [Date]: [None] is the Invalid Date, whose time value and getters are
    all NaN. *)
Definition JsDate := option DateFields.

(** A number read off a date: an integer, or [None] for NaN. *)
Definition DateNumber := option Z.

Definition getTime (d : JsDate) : DateNumber := option_map timeValue d.
Definition getFullYear (d : JsDate) : DateNumber := option_map fullYear d.
Definition getMonth (d : JsDate) : DateNumber := option_map month d.
Definition getDate (d : JsDate) : DateNumber := option_map date d.

(** Arithmetic and comparisons with NaN: a difference with NaN is NaN, a
    comparison with NaN is false. *)
Definition minus (a b : DateNumber) : DateNumber :=
  match a, b with Some x, Some y => Some (x - y) | _, _ => None end.

Definition lessThan (a b : DateNumber) : bool :=
  match a, b with Some x, Some y => x <? y | _, _ => false end.

Definition atLeast (a b : DateNumber) : bool :=
  match a, b with Some x, Some y => y <=? x | _, _ => false end.

Definition same (a b : DateNumber) : bool :=
  match a, b with Some x, Some y => x =? y | _, _ => false end.

(** The [superRefine] of [dateOfBirth]: the issues it adds, given
    [birthDate = new Date(dob)] and [today = new Date()]. *)
Definition dateOfBirthIssues (birthDate today : JsDate) : list string :=
  if atLeast (getTime birthDate) (getTime today)
  then ["Date of birth must be in the past"%string]
  else
    let age := minus (getFullYear today) (getFullYear birthDate) in
    let monthDiff := minus (getMonth today) (getMonth birthDate) in
    let age :=
      if lessThan monthDiff (Some 0)
         || (same monthDiff (Some 0) && lessThan (getDate today) (getDate birthDate))
      then minus age (Some 1)
      else age in
    if lessThan age (Some 18)
    then ["You must be at least 18 years old"%string]
    else [].

Definition US_STATES : list Text :=
  map ofAscii
    ["AL";"AK";"AZ";"AR";"CA";"CO";"CT";"DE";"FL";"GA";
     "HI";"ID";"IL";"IN";"IA";"KS";"KY";"LA";"ME";"MD";
     "MA";"MI";"MN";"MS";"MO";"MT";"NE";"NV";"NH";"NJ";
     "NM";"NY";"NC";"ND";"OH";"OK";"OR";"PA";"RI";"SC";
     "SD";"TN";"TX";"UT";"VT";"VA";"WA";"WV";"WI";"WY"]%string.

(** [US_STATES.includes(val)] *)
Definition includes (l : list Text) (val : Text) : bool := existsb (Text_eqb val) l.

(** Library functions the router calls whose code is not in the sources:
    the case mappings of [String.prototype], zod's [.email()] test,
    [bcrypt.compare], and the [Date] constructor applied to a string. *)
Record Runtime := mkRuntime {
  toLowerCase : Text -> Text;
  toUpperCase : Text -> Text;
  isEmail : Text -> bool;
  bcryptCompare : Text -> Text -> bool;
  newDate : Text -> JsDate
}.

(** The fields of the signup form other than the credentials. *)
Record Profile := mkProfile {
  firstName : Text;
  lastName : Text;
  phoneNumber : Text;
  dateOfBirth : Text;
  address : Text;
  city : Text;
  state : Text;
  zipCode : Text
}.

(** The input object of [signup]. *)
Record SignupInput := mkSignupInput {
  si_email : Text;
  si_password : Text;
  si_ssn : Text;
  si_profile : Profile
}.

(** The five checks on [password]. *)
Definition passwordAccepted (p : Text) : bool :=
  (8 <=? List.length p)%nat
  && existsb isUpper p
  && existsb isLower p
  && existsb isDigit p
  && existsb (fun c => negb (isAlnum c)) p.

(** [/^\+[1-9]\d{7,14}$/] *)
Definition phoneNumberAccepted (p : Text) : bool :=
  match p with
  | plus :: first :: rest =>
      (plus =? 43) && (49 <=? first) && (first <=? 57)
      && forallb isDigit rest
      && (7 <=? List.length rest)%nat && (List.length rest <=? 14)%nat
  | _ => false
  end.

(** [/^\d{n}$/] *)
Definition digitsAccepted (n : nat) (s : Text) : bool :=
  (List.length s =? n)%nat && forallb isDigit s.

(** [z.string().min(1)] *)
Definition nonEmpty (s : Text) : bool := (1 <=? List.length s)%nat.

(** [state]: two code units, upper-cased, then looked up in [US_STATES];
    the upper-cased value is what the handler receives. *)
Definition parseState (rt : Runtime) (s : Text) : option Text :=
  if (List.length s =? 2)%nat
  then let val := toUpperCase rt s in
       if includes US_STATES val then Some val else None
  else None.

(** The zod schema of [signup], [today] being [new Date()] when the date of
    birth is checked: the parsed input, or [None] when it has issues. *)
Definition signupSchema (rt : Runtime) (today : DateFields) (input : SignupInput)
  : option SignupInput :=
  let p := si_profile input in
  if isEmail rt (si_email input)
     && passwordAccepted (si_password input)
     && nonEmpty (firstName p) && nonEmpty (lastName p)
     && phoneNumberAccepted (phoneNumber p)
     && match dateOfBirthIssues (newDate rt (dateOfBirth p)) (Some today) with
        | [] => true
        | _ => false
        end
     && digitsAccepted 9 (si_ssn input)
     && nonEmpty (address p) && nonEmpty (city p)
     && digitsAccepted 5 (zipCode p)
  then match parseState rt (state p) with
       | Some val =>
           Some (mkSignupInput (si_email input) (si_password input) (si_ssn input)
                   (mkProfile (firstName p) (lastName p) (phoneNumber p)
                      (dateOfBirth p) (address p) (city p) val (zipCode p)))
       | None => None
       end
  else None.

(** A row of table [users]: the id and the spread input, the password and
    the ssn being their bcrypt hashes. *)
Record User := mkUser {
  user_id : Z;
  user_email : Text;
  user_password : Text;
  user_ssn : Text;
  user_profile : Profile
}.

(** [{ ...user, password: undefined }] *)
Record ReturnedUser := mkReturnedUser {
  ru_id : Z;
  ru_email : Text;
  ru_ssn : Text;
  ru_profile : Profile
}.

Definition withoutPassword (u : User) : ReturnedUser :=
  mkReturnedUser (user_id u) (user_email u) (user_ssn u) (user_profile u).

(** A row of table [sessions]. *)
Record Session := mkSession {
  sess_id : Z;
  sess_userId : Z;
  sess_token : Text;
  sess_expiresAt : Text
}.

Record AuthStore := mkAuthStore {
  users : list User;
  sessions : list Session;
  userSeq : Z;
  sessionSeq : Z
}.

Definition emptyAuthStore : AuthStore := mkAuthStore [] [] 0 0.

Inductive Code := BAD_REQUEST | CONFLICT | INTERNAL_SERVER_ERROR | UNAUTHORIZED.

(** How a call ends: with a value, with a [TRPCError], or with its input
    turned away by the schema. *)
Inductive Result (A : Type) : Type :=
| Done (a : A)
| Failed (code : Code) (message : string)
| Rejected.

Arguments Done {A} a.
Arguments Failed {A} code message.
Arguments Rejected {A}.

(** A handler: from the store, its result and the store it leaves. *)
Definition Handler (A : Type) : Type := AuthStore -> Result A * AuthStore.

Definition ret {A : Type} (a : A) : Handler A := fun s => (Done a, s).

Definition throw {A : Type} (code : Code) (message : string) : Handler A :=
  fun s => (Failed code message, s).

Definition andThen {A B : Type} (h : Handler A) (k : A -> Handler B) : Handler B :=
  fun s =>
    match h s with
    | (Done a, s') => k a s'
    | (Failed code message, s') => (Failed code message, s')
    | (Rejected, s') => (Rejected, s')
    end.

Notation "x <- h ;; k" := (andThen h (fun x => k))
  (at level 61, h at next level, right associativity, only parsing).
Notation "h ;; k" := (andThen h (fun _ => k))
  (at level 61, right associativity, only parsing).

Definition byEmail (email : Text) (u : User) : bool := Text_eqb (user_email u) email.

(** [db.select().from(users).where(eq(users.email, email)).get()] *)
Definition selectUser (email : Text) : Handler (option User) :=
  fun s => (Done (find (byEmail email) (users s)), s).

(** Modelled from the spec: the column defaults of [users] and [sessions]
    (the schema module [@/lib/db/schema] is not part of the sources); as for
    the other tables, [id] comes from a counter per table.
    [db.insert(users).values(v)], [v] without its id: *)
Definition insertUser (email password ssn : Text) (profile : Profile) : Handler unit :=
  fun s =>
    let id := userSeq s + 1 in
    (Done tt, mkAuthStore (users s ++ [mkUser id email password ssn profile])
                          (sessions s) id (sessionSeq s)).

(** [db.delete(sessions).where(eq(sessions.userId, userId))] *)
Definition deleteSessions (userId : Z) : Handler unit :=
  fun s =>
    (Done tt, mkAuthStore (users s)
                          (filter (fun x => negb (sess_userId x =? userId)) (sessions s))
                          (userSeq s) (sessionSeq s)).

(** [db.insert(sessions).values({ userId, token, expiresAt })] *)
Definition insertSession (userId : Z) (token expiresAt : Text) : Handler unit :=
  fun s =>
    let id := sessionSeq s + 1 in
    (Done tt, mkAuthStore (users s)
                          (sessions s ++ [mkSession id userId token expiresAt])
                          (userSeq s) id).

(** What the environment supplies to a call that opens a session: the two
    values [bcrypt.hash] returned (signup only), [jwt.sign] as a function
    of the user id, and [expiresAt.toISOString()]. *)
Record Env := mkEnv {
  hashedPassword : Text;
  hashedSSN : Text;
  sign : Z -> Text;
  expiresAt : Text
}.

(** What a successful [signup] or [login] hands back: the returned object
    and the [Set-Cookie] header. *)
Record Opened := mkOpened {
  op_user : ReturnedUser;
  op_token : Text;
  op_setCookie : Text
}.

Definition sessionCookie (token : Text) : Text :=
  ofAscii "session=" ++ token
  ++ ofAscii "; Path=/; HttpOnly; SameSite=Strict; Max-Age=604800".

(** [input.email.trim().toLowerCase()] *)
Definition normalizeEmail (rt : Runtime) (email : Text) : Text :=
  toLowerCase rt (trim email).

Definition commonTypos : list Text := map ofAscii [".con"; ".cmo"; ".cim"; ".cm"]%string.

(** The statements of [signup] and of [login] from [jwt.sign] on. *)
Definition openSession (env : Env) (user : User) : Handler Opened :=
  let token := sign env (user_id user) in
  deleteSessions (user_id user) ;;
  insertSession (user_id user) token (expiresAt env) ;;
  ret (mkOpened (withoutPassword user) token (sessionCookie token)).

(** The handler of [signup], on the parsed input. *)
Definition signup (rt : Runtime) (env : Env) (input : SignupInput) : Handler Opened :=
  let normalizedEmail := normalizeEmail rt (si_email input) in
  if existsb (fun t => endsWith normalizedEmail t) commonTypos
  then throw BAD_REQUEST "Email domain looks incorrect. Did you mean .com?"
  else
    existingUser <- selectUser normalizedEmail ;;
    match existingUser with
    | Some _ => throw CONFLICT "User already exists"
    | None =>
        insertUser normalizedEmail (hashedPassword env) (hashedSSN env)
                   (si_profile input) ;;
        user <- selectUser normalizedEmail ;;
        match user with
        | None => throw INTERNAL_SERVER_ERROR "Failed to create user"
        | Some user => openSession env user
        end
    end.

(** The input object of [login]; its schema asks for an email and any
    string as password. *)
Record LoginInput := mkLoginInput {
  li_email : Text;
  li_password : Text
}.

(** The handler of [login]. *)
Definition login (rt : Runtime) (env : Env) (input : LoginInput) : Handler Opened :=
  let normalizedEmail := normalizeEmail rt (li_email input) in
  user <- selectUser normalizedEmail ;;
  match user with
  | None => throw UNAUTHORIZED "Invalid credentials"
  | Some user =>
      if negb (bcryptCompare rt (li_password input) (user_password user))
      then throw UNAUTHORIZED "Invalid credentials"
      else openSession env user
  end.

Record LoggedOut := mkLoggedOut {
  lo_success : bool;
  lo_message : string;
  lo_setCookie : Text
}.

(** The handler of [logout]; [ctxUser] is the id of [ctx.user], if any.  The
    handler also reads the session token off the request's cookies, but no
    statement uses it: that read is left out, and is taken not to throw. *)
Definition logout (ctxUser : option Z) : Handler LoggedOut :=
  (match ctxUser with
   | Some userId => deleteSessions userId
   | None => ret tt
   end) ;;
  ret (mkLoggedOut true
         (match ctxUser with
          | Some _ => "Logged out successfully"
          | None => "No active session"
          end)
         (ofAscii "session=; Path=/; HttpOnly; SameSite=Strict; Max-Age=0")).

(** The procedures with their schemas. *)
Definition signupProcedure (rt : Runtime) (today : DateFields) (env : Env)
    (input : SignupInput) : Handler Opened :=
  match signupSchema rt today input with
  | Some parsed => signup rt env parsed
  | None => fun s => (Rejected, s)
  end.

Definition loginProcedure (rt : Runtime) (env : Env) (input : LoginInput)
  : Handler Opened :=
  if isEmail rt (li_email input) then login rt env input else fun s => (Rejected, s).

(** A request to the authentication router, with what the environment
    supplies to it. *)
Inductive Request :=
| Signup (today : DateFields) (env : Env) (input : SignupInput)
| Login (env : Env) (input : LoginInput)
| Logout (ctxUser : option Z).

Definition serve (rt : Runtime) (s : AuthStore) (r : Request) : AuthStore :=
  match r with
  | Signup today env input => snd (signupProcedure rt today env input s)
  | Login env input => snd (loginProcedure rt env input s)
  | Logout ctxUser => snd (logout ctxUser s)
  end.

Definition serveAll (rt : Runtime) (rs : list Request) : AuthStore :=
  fold_left (serve rt) rs emptyAuthStore.

(** The constraints the handlers maintain: emails and ids of users are
    unique, a user has at most one session, and every session is a user's. *)
Definition consistent (s : AuthStore) : Prop :=
  NoDup (map user_email (users s))
  /\ NoDup (map user_id (users s))
  /\ NoDup (map sess_userId (sessions s))
  /\ Forall (fun x => exists u, In u (users s) /\ user_id u = sess_userId x) (sessions s)
  /\ Forall (fun u => user_id u <= userSeq s) (users s).

(** The date of birth lies at least eighteen years back, by the calendar:
    the eighteenth birthday is today or earlier. *)
Definition eighteenByCalendar (b today : DateFields) : Prop :=
  fullYear b + 18 < fullYear today
  \/ (fullYear b + 18 = fullYear today
      /\ (month b < month today
          \/ (month b = month today /\ date b <= date today))).

(** An ASCII-only runtime, for examples: case mappings of the letters a-z,
    any text containing ["@"] as an email, a "hash" that prefixes ["$"], and
    no date parsing. *)
Definition asciiRuntime : Runtime :=
  mkRuntime
    (map (fun c => if isUpper c then c + 32 else c))
    (map (fun c => if isLower c then c - 32 else c))
    (existsb (Z.eqb 64))
    (fun password hash => Text_eqb hash (36 :: password))
    (fun _ => None).

(** A signup form for examples: the state in lower case, a date of birth
    that is no date. *)
Definition annsForm : SignupInput :=
  mkSignupInput (ofAscii "Ann@Example.com") (ofAscii "Passw0rd!") (ofAscii "123456789")
    (mkProfile (ofAscii "Ann") (ofAscii "Lee") (ofAscii "+14155552671")
       (ofAscii "not a date") (ofAscii "1 Main St") (ofAscii "Springfield")
       (ofAscii "il") (ofAscii "62701")).

Definition aDay : DateFields := mkDate 1700000000000 2023 10 14.

(** The environment of Ann's signup, and that of her later login. *)
Definition annsSignupEnv : Env :=
  mkEnv (36 :: ofAscii "Passw0rd!") (36 :: ofAscii "123456789")
        (fun id => ofAscii "token-a-" ++ [48 + id]) (ofAscii "2023-11-21T00:00:00.000Z").

Definition annsLoginEnv : Env :=
  mkEnv [] [] (fun id => ofAscii "token-b-" ++ [48 + id])
        (ofAscii "2023-11-22T00:00:00.000Z").

(** The store after Ann signed up. *)
Definition annSignedUp : AuthStore :=
  serveAll asciiRuntime [Signup aDay annsSignupEnv annsForm].

(** The session a call opens for [user], and the sessions it leaves. *)
Definition openedSession (env : Env) (s : AuthStore) (user : User) : Session :=
  mkSession (sessionSeq s + 1) (user_id user) (sign env (user_id user)) (expiresAt env).

Definition sessionsOfOthers (userId : Z) (s : AuthStore) : list Session :=
  filter (fun x => negb (sess_userId x =? userId)) (sessions s).

End Auth.

(* ===================================================================== *)
(** ** Properties: decimal numerals and account numbers *)
(* ===================================================================== *)

Section Numerals.

Lemma digitChar_isDigit (d : Z) :
  0 <= d < 10 -> Js.isDigit (Js.digitChar d) = true.
Proof.
  intros Hd.
  assert (d = 0 \/ d = 1 \/ d = 2 \/ d = 3 \/ d = 4 \/ d = 5 \/ d = 6 \/
          d = 7 \/ d = 8 \/ d = 9) as Hcases by lia.
  repeat (destruct Hcases as [-> | Hcases]; [reflexivity |]).
  subst d. reflexivity.
Qed.

Lemma digitsOf_isDigit (fuel : nat) :
  forall n acc,
    0 <= n ->
    forallb Js.isDigit (list_ascii_of_string acc) = true ->
    forallb Js.isDigit (list_ascii_of_string (Js.digitsOf fuel n acc)) = true.
Proof.
  induction fuel as [| fuel IH]; intros n acc Hn Hacc.
  - cbn [Js.digitsOf list_ascii_of_string forallb].
    rewrite digitChar_isDigit by (apply Z.mod_pos_bound; lia). exact Hacc.
  - cbn [Js.digitsOf].
    assert (forallb Js.isDigit
              (list_ascii_of_string (String (Js.digitChar (n mod 10)) acc)) = true)
      as Hacc'.
    { cbn [list_ascii_of_string forallb].
      rewrite digitChar_isDigit by (apply Z.mod_pos_bound; lia). exact Hacc. }
    destruct (n <? 10); [exact Hacc' |].
    apply IH; [apply Z.div_pos; lia | exact Hacc'].
Qed.

(** A number with [k + 1] decimal digits prints as [k + 1] characters,
    provided the fuel allows [k] divisions. *)
Lemma digitsOf_length (k : nat) :
  forall fuel n acc,
    (k <= fuel)%nat ->
    0 <= n ->
    (k <> 0%nat -> 10 ^ Z.of_nat k <= n) ->
    n < 10 ^ Z.of_nat (S k) ->
    String.length (Js.digitsOf fuel n acc) = (S k + String.length acc)%nat.
Proof.
  induction k as [| k IH]; intros fuel n acc Hfuel Hn Hlo Hhi.
  - change (10 ^ Z.of_nat 1) with 10 in Hhi.
    destruct fuel; cbn [Js.digitsOf]; [reflexivity |].
    destruct (Z.ltb_spec n 10); [reflexivity | lia].
  - destruct fuel as [| fuel]; [lia |].
    specialize (Hlo ltac:(discriminate)).
    assert (0 < 10 ^ Z.of_nat k) as Hpos by (apply Z.pow_pos_nonneg; lia).
    assert (10 ^ Z.of_nat (S k) = 10 * 10 ^ Z.of_nat k) as Hk
      by (rewrite Nat2Z.inj_succ, Z.pow_succ_r; lia).
    assert (10 ^ Z.of_nat (S (S k)) = 10 * 10 ^ Z.of_nat (S k)) as Hk'
      by (rewrite (Nat2Z.inj_succ (S k)), Z.pow_succ_r; lia).
    cbn [Js.digitsOf].
    destruct (Z.ltb_spec n 10); [lia |].
    rewrite IH.
    + cbn [String.length]. lia.
    + lia.
    + apply Z.div_pos; lia.
    + intros _. apply Z.div_le_lower_bound; lia.
    + apply Z.div_lt_upper_bound; lia.
Qed.

End Numerals.

(** C9.  Whatever integer [crypto.randomInt(1000000000, 9999999999)] draws,
    [generateAccountNumber] returns a string of exactly ten characters, all
    of them decimal digits. *)
Theorem generateAccountNumber_ten_digits (r : Z) :
  Js.randomInt_returns accountNumberMin accountNumberMax r ->
  String.length (generateAccountNumber r) = 10%nat
  /\ forallb Js.isDigit (list_ascii_of_string (generateAccountNumber r)) = true.
Proof.
  unfold Js.randomInt_returns, accountNumberMin, accountNumberMax.
  intros Hr.
  unfold generateAccountNumber, Js.integerToString.
  destruct (Z.ltb_spec r 0); [lia |].
  split.
  - rewrite (digitsOf_length 9); [reflexivity | | lia | | ].
    + assert (Z.log2 1000000000 <= Z.log2 r) as Hlog by (apply Z.log2_le_mono; lia).
      change (Z.log2 1000000000) with 29 in Hlog. lia.
    + intros _. change (10 ^ Z.of_nat 9) with 1000000000. lia.
    + change (10 ^ Z.of_nat 10) with 10000000000. lia.
  - apply digitsOf_isDigit; [lia | reflexivity].
Qed.

Lemma generateAccountNumber_ten_digits_witness :
  String.length (generateAccountNumber 9999999998) = 10%nat
  /\ forallb Js.isDigit (list_ascii_of_string (generateAccountNumber 9999999998)) = true.
Proof.
  apply (generateAccountNumber_ten_digits 9999999998).
  unfold Js.randomInt_returns, accountNumberMin, accountNumberMax. lia.
Defined.

(* ===================================================================== *)
(** ** Properties: running handlers *)
(* ===================================================================== *)

Section Running.

Context {A B : Type}.

(** Running [bind p f] runs [p], then [f] on its value. *)
Lemma run_bind (p : Prog A) (f : A -> Prog B) :
  forall s,
    run (bind p f) s =
    match run p s with
    | (Ok a, s') => run (f a) s'
    | (Err e, s') => (Err e, s')
    | (Diverges, s') => (Diverges, s')
    end.
Proof.
  induction p as [a | e | | X q k IH]; intros s; cbn [bind run]; try reflexivity.
  destruct (q s) as [x s']. apply IH.
Qed.

Lemma setNth_app (before after : list (Prog A)) (p p' : Prog A) :
  setNth (List.length before) p' (before ++ p :: after) = before ++ p' :: after.
Proof.
  induction before as [| b before IH]; cbn [setNth List.length app].
  - reflexivity.
  - now rewrite IH.
Qed.

(** A resumed handler makes a step of the interleaving semantics. *)
Lemma resume_step (i : nat) (c c' : Store * list (Prog A)) :
  resume i c = Some c' -> step c c'.
Proof.
  destruct c as [s ps]. unfold resume. cbn [fst snd].
  destruct (nth_error ps i) as [p |] eqn:Hnth; [| discriminate].
  destruct p as [a | e | | X q k]; try discriminate.
  destruct (q s) as [x s'] eqn:Hq. intros [= <-].
  destruct (nth_error_split ps i Hnth) as (before & after & -> & <-).
  rewrite setNth_app. now apply step_await.
Qed.

Lemma schedule_steps (turns : list nat) :
  forall c c' : Store * list (Prog A), schedule turns c = Some c' -> steps c c'.
Proof.
  induction turns as [| i turns IH]; intros c c'; cbn [schedule].
  - intros [= <-]. apply steps_refl.
  - destruct (resume i c) as [c1 |] eqn:Hres; [| discriminate].
    intros Hrest. eapply steps_step; [eapply resume_step; eassumption | now apply IH].
Qed.

End Running.

(* ===================================================================== *)
(** ** Properties: the account-number loop *)
(* ===================================================================== *)

Section Allocator.

Variable s : Store.
Variable draws : nat -> Z.

(** While every draw is taken the loop is still running, whatever the
    number of iterations allowed. *)
Lemma uniqueAccountNumber_taken (fuel : nat) :
  forall i,
    (forall j, (i <= j < i + fuel)%nat -> taken s draws j) ->
    run (uniqueAccountNumber fuel draws i) s = (Diverges, s).
Proof.
  induction fuel as [| fuel IH]; intros i Htaken; cbn [uniqueAccountNumber run].
  - reflexivity.
  - unfold Db.selectAccount.
    destruct (find _ (accounts s)) as [a |] eqn:Hfind.
    + apply IH. intros j Hj. apply Htaken. lia.
    + exfalso. apply (Htaken i); [lia | exact Hfind].
Qed.

(** The loop stops at the first draw that is free, and not before. *)
Lemma uniqueAccountNumber_from (k : nat) :
  forall fuel i,
    (i <= k)%nat ->
    (forall j, (i <= j < k)%nat -> taken s draws j) ->
    ~ taken s draws k ->
    (k - i < fuel)%nat ->
    run (uniqueAccountNumber fuel draws i) s
    = (Ok (generateAccountNumber (draws k)), s).
Proof.
  intros fuel. induction fuel as [| fuel IH]; intros i Hik Htaken Hfree Hfuel.
  - lia.
  - cbn [uniqueAccountNumber run]. unfold Db.selectAccount.
    destruct (find _ (accounts s)) as [a |] eqn:Hfind.
    + assert (i <> k) as Hne.
      { intros ->. apply Hfree. unfold taken. now rewrite Hfind. }
      apply IH; [lia | | exact Hfree | lia].
      intros j Hj. apply Htaken. lia.
    + assert (i = k) as ->.
      { destruct (Nat.eq_dec i k) as [| Hne]; [assumption |].
        exfalso. apply (Htaken i); [lia | exact Hfind]. }
      reflexivity.
Qed.

End Allocator.

(** C4, as the source has it.  The loop of [createAccount] returns the
    first drawn number that no account holds, after one generate-and-check
    attempt per draw up to that one, and leaves the store as it was; with
    fewer attempts allowed than that it has not returned.  There is no bound
    on the number of attempts. *)
Theorem uniqueAccountNumber_first_free (s : Store) (draws : nat -> Z) (k : nat) :
  (forall j, (j < k)%nat -> taken s draws j) ->
  ~ taken s draws k ->
  forall fuel,
    run (uniqueAccountNumber fuel draws 0) s
    = if (k <? fuel)%nat
      then (Ok (generateAccountNumber (draws k)), s)
      else (Diverges, s).
Proof.
  intros Htaken Hfree fuel.
  destruct (Nat.ltb_spec k fuel) as [Hlt | Hge].
  - apply uniqueAccountNumber_from with (k := k); try assumption; try lia.
    intros j Hj. apply Htaken. lia.
  - apply uniqueAccountNumber_taken. intros j Hj. apply Htaken. lia.
Qed.

Lemma uniqueAccountNumber_first_free_witness :
  run (uniqueAccountNumber 2
         (fun i => match i with O => 1234567890 | _ => 2000000000 end) 0)
      storeHolding1234567890
  = (Ok "2000000000"%string, storeHolding1234567890).
Proof.
  apply (uniqueAccountNumber_first_free storeHolding1234567890
           (fun i => match i with O => 1234567890 | _ => 2000000000 end) 1 ).
  - intros j Hj. assert (j = 0%nat) as -> by lia. unfold taken. vm_compute. discriminate.
  - unfold taken. vm_compute. intros H. now apply H.
Defined.

(** C4, as specified (termination after a bounded number of attempts),
    does not hold of the source: with every draw within the bounds of
    [crypto.randomInt] and already taken, no number of attempts makes the
    loop return, with an error or otherwise; [createAccount] for a user
    without an account of the type does not return either. *)
Lemma uniqueAccountNumber_unbounded :
  (forall i, Js.randomInt_returns accountNumberMin accountNumberMax
               (alwaysDraws1234567890 i))
  /\ (forall fuel,
        run (uniqueAccountNumber fuel alwaysDraws1234567890 0) storeHolding1234567890
        = (Diverges, storeHolding1234567890))
  /\ (forall fuel,
        run (createAccountProcedure 2 alwaysDraws1234567890 fuel checking)
            storeHolding1234567890
        = (Diverges, storeHolding1234567890)).
Proof.
  assert (forall fuel,
             run (uniqueAccountNumber fuel alwaysDraws1234567890 0) storeHolding1234567890
             = (Diverges, storeHolding1234567890)) as Hloop.
  { intros fuel. apply uniqueAccountNumber_taken.
    intros j _. unfold taken. vm_compute. discriminate. }
  split; [| split].
  - intros i. unfold Js.randomInt_returns, accountNumberMin, accountNumberMax,
      alwaysDraws1234567890. lia.
  - exact Hloop.
  - intros fuel. unfold createAccountProcedure, procedure, createAccount.
    cbn [run]. unfold Db.selectAccount at 1.
    change (find (byOwnerAndType 2 checking) (accounts storeHolding1234567890))
      with (@None Account).
    cbv iota. rewrite run_bind, Hloop. reflexivity.
Qed.

(* ===================================================================== *)
(** ** Properties: lookups *)
(* ===================================================================== *)

Section Lookups.

(** With unique keys, a lookup whose condition fixes the key finds exactly
    the row that has it. *)
Lemma find_unique {T : Type} (key : T -> Z) (p : T -> bool) (a : T) :
  forall l,
    NoDup (map key l) ->
    In a l ->
    p a = true ->
    (forall x, p x = true -> key x = key a) ->
    find p l = Some a.
Proof.
  intros l Hnodup Hin Hpa Hkey.
  induction l as [| x l IH]; [contradiction |].
  cbn [map] in Hnodup. inversion Hnodup as [| k ks Hnotin Hnodup']; subst.
  cbn [find]. destruct Hin as [-> | Hin].
  - now rewrite Hpa.
  - destruct (p x) eqn:Hpx.
    + exfalso. apply Hnotin. rewrite (Hkey x Hpx). now apply in_map.
    + now apply IH.
Qed.

Lemma find_matches_nothing {T : Type} (p : T -> bool) (l : list T) :
  (forall x, In x l -> p x = false) -> find p l = None.
Proof.
  induction l as [| x l IH]; intros Hall; cbn [find]; [reflexivity |].
  rewrite (Hall x (or_introl eq_refl)). apply IH. intros y Hy. apply Hall. now right.
Qed.

Lemma find_byIdAndOwner (s : Store) (a : Account) :
  uniqueIds s -> In a (accounts s) ->
  find (byIdAndOwner (acc_id a) (acc_userId a)) (accounts s) = Some a.
Proof.
  intros Hids Hin. apply (find_unique acc_id); try assumption.
  - unfold byIdAndOwner. now rewrite !Z.eqb_refl.
  - unfold byIdAndOwner. intros x [Hx _]%andb_prop. now apply Z.eqb_eq.
Qed.

Lemma find_byId (s : Store) (a : Account) :
  uniqueIds s -> In a (accounts s) ->
  find (byId (acc_id a)) (accounts s) = Some a.
Proof.
  intros Hids Hin. apply (find_unique acc_id); try assumption.
  - unfold byId. apply Z.eqb_refl.
  - unfold byId. intros x Hx. now apply Z.eqb_eq.
Qed.

(** An id that is missing, or that belongs to somebody else, matches no row
    of the ownership lookup. *)
Lemma find_byIdAndOwner_none (s : Store) (id user : Z) :
  uniqueIds s ->
  noSuchAccount s id \/ ownedByAnother s id user ->
  find (byIdAndOwner id user) (accounts s) = None.
Proof.
  intros Hids Hcase. apply find_matches_nothing. intros x Hx.
  unfold byIdAndOwner.
  destruct (Z.eqb_spec (acc_id x) id) as [Hid | Hid]; [| reflexivity].
  destruct (Z.eqb_spec (acc_userId x) user) as [Huser | Huser]; [| reflexivity].
  exfalso. destruct Hcase as [Hmissing | (a & Ha & Haid & Hauser)].
  - now apply (Hmissing x).
  - assert (find (byId id) (accounts s) = Some a) as Hfa
      by (rewrite <- Haid; now apply find_byId).
    assert (find (byId id) (accounts s) = Some x) as Hfx
      by (rewrite <- Hid; now apply find_byId).
    congruence.
Qed.

End Lookups.

(* ===================================================================== *)
(** ** Properties: what a funding does *)
(* ===================================================================== *)

Section Funding.

Local Open Scope float_scope.

(** A number above zero is not at most zero, and is no zero. *)
Lemma positive_number (x : float) :
  (0 <? x) = true -> (x <=? 0) = false /\ (x =? 0) = false.
Proof.
  rewrite ltb_spec, leb_spec, eqb_spec.
  change (Prim2SF 0) with (S754_zero false).
  destruct (Prim2SF x) as [sx | sx | | sx mx ex];
    try destruct sx; cbn; auto; discriminate.
Qed.

Lemma parseFloat_toString_positive (x : float) :
  (0 <? x) = true -> Js.parseFloat_toString x = x.
Proof.
  intros [_ Hz]%positive_number.
  unfold Js.parseFloat_toString, is_zero. change zero with 0. now rewrite Hz.
Qed.

Lemma fundAccountSchema_amount (input : FundInput) :
  fundAccountSchema input = true -> (0 <? fi_amount input) = true.
Proof. unfold fundAccountSchema. now intros [H _]%andb_prop. Qed.

Variables (user : Z) (dbNow jsNow : Timestamp) (input : FundInput).
Hypothesis Hschema : fundAccountSchema input = true.

(** [fundAccount] on an input the schema accepts, run alone. *)
Lemma run_fundAccount (s : Store) :
  run (fundAccount user dbNow jsNow input) s =
  match find (byIdAndOwner (fi_accountId input) user) (accounts s) with
  | None => (Err (TRPCError NOT_FOUND "Account not found"), s)
  | Some account =>
      if String.eqb (acc_status account) "active"
      then
        let newBalance := acc_balance account + fi_amount input in
        (Ok (mkFundResult
               (hd_error (Db.sortBy Db.asc_createdAt
                            (filter (ofAccount (fi_accountId input))
                                    (transactions s ++ [depositRow dbNow jsNow input s]))))
               newBalance),
         mkStore
           (map (fun a => if byId (fi_accountId input) a
                          then Db.setBalance newBalance a else a) (accounts s))
           (transactions s ++ [depositRow dbNow jsNow input s])
           (accountSeq s) (transactionSeq s + 1))
      else (Err (TRPCError BAD_REQUEST "Account is not active"), s)
  end.
Proof.
  pose proof (fundAccountSchema_amount input Hschema) as Hpos.
  unfold fundAccount.
  rewrite (parseFloat_toString_positive _ Hpos).
  destruct (positive_number _ Hpos) as [-> _].
  cbn [run]. unfold Db.selectAccount at 1.
  destruct (find _ (accounts s)) as [account |]; [| reflexivity].
  destruct (String.eqb (acc_status account) "active"); reflexivity.
Qed.

Lemma run_fundAccountProcedure (s : Store) :
  run (fundAccountProcedure user dbNow jsNow input) s
  = run (fundAccount user dbNow jsNow input) s.
Proof. unfold fundAccountProcedure, procedure. now rewrite Hschema. Qed.

End Funding.

(* ===================================================================== *)
(** ** Properties: errors leave the store alone *)
(* ===================================================================== *)

(** C5.  When no account has the given id, or the account with that id
    belongs to another user, [fundAccount] and [getTransactions] both fail
    with NOT_FOUND "Account not found" and change nothing: the error is the
    same in the two cases. *)
Theorem notFound_when_missing_or_foreign
    (s : Store) (user : Z) (dbNow jsNow : Timestamp) (input : FundInput) :
  uniqueIds s ->
  fundAccountSchema input = true ->
  noSuchAccount s (fi_accountId input) \/ ownedByAnother s (fi_accountId input) user ->
  run (fundAccountProcedure user dbNow jsNow input) s
  = (Err (TRPCError NOT_FOUND "Account not found"), s)
  /\ run (getTransactionsProcedure user (fi_accountId input)) s
     = (Err (TRPCError NOT_FOUND "Account not found"), s).
Proof.
  intros Hids Hschema Hcase.
  pose proof (find_byIdAndOwner_none s (fi_accountId input) user Hids Hcase) as Hfind.
  split.
  - rewrite run_fundAccountProcedure, run_fundAccount by assumption.
    now rewrite Hfind.
  - unfold getTransactionsProcedure, procedure, getTransactions.
    cbn [run]. unfold Db.selectAccount. now rewrite Hfind.
Qed.

Lemma notFound_when_missing_or_foreign_witness :
  run (fundAccountProcedure 8 20 20 (cardFunding 50%float)) storeFundedOnce
  = (Err (TRPCError NOT_FOUND "Account not found"), storeFundedOnce)
  /\ run (getTransactionsProcedure 8 1) storeFundedOnce
     = (Err (TRPCError NOT_FOUND "Account not found"), storeFundedOnce).
Proof.
  apply (notFound_when_missing_or_foreign storeFundedOnce 8 20 20 (cardFunding 50%float)).
  - unfold uniqueIds. vm_compute. constructor; [intros [] | constructor].
  - reflexivity.
  - right. eexists. split; [left; reflexivity |]. split; [reflexivity |].
    vm_compute. discriminate.
Defined.

(** C6.  When the owner already holds an account of the requested type,
    [createAccount] fails with CONFLICT "You already have a <type> account"
    and the store, its accounts included, is as before. *)
Theorem createAccount_duplicate_type
    (s : Store) (user : Z) (draws : nat -> Z) (fuel : nat) (accountType : AccountType) :
  (exists a, In a (accounts s) /\ acc_userId a = user /\ acc_accountType a = accountType) ->
  run (createAccountProcedure user draws fuel accountType) s
  = (Err (TRPCError CONFLICT
            ("You already have a " ++ AccountType_name accountType ++ " account")), s).
Proof.
  intros (a & Hin & Huser & Htype).
  unfold createAccountProcedure, procedure, createAccount.
  cbn [run]. unfold Db.selectAccount at 1.
  destruct (find (byOwnerAndType user accountType) (accounts s)) as [found |] eqn:Hfind.
  - reflexivity.
  - exfalso. pose proof (find_none _ _ Hfind a Hin) as Hno.
    unfold byOwnerAndType in Hno.
    rewrite Huser, Htype, Z.eqb_refl in Hno. now destruct accountType.
Qed.

Lemma createAccount_duplicate_type_witness :
  run (createAccountProcedure 7 (fun _ => 2000000000) 1 checking) storeOpened
  = (Err (TRPCError CONFLICT "You already have a checking account"), storeOpened).
Proof.
  apply (createAccount_duplicate_type storeOpened 7 (fun _ => 2000000000) 1 checking).
  eexists. split; [left; reflexivity |]. split; reflexivity.
Defined.

(** C7.  When the caller's account is not 'active', [fundAccount] fails
    with BAD_REQUEST "Account is not active" and the store is as before:
    same balances, same transactions. *)
Theorem fundAccount_inactive
    (s : Store) (user : Z) (dbNow jsNow : Timestamp) (input : FundInput) (a : Account) :
  uniqueIds s ->
  fundAccountSchema input = true ->
  In a (accounts s) ->
  acc_id a = fi_accountId input ->
  acc_userId a = user ->
  acc_status a <> "active"%string ->
  run (fundAccountProcedure user dbNow jsNow input) s
  = (Err (TRPCError BAD_REQUEST "Account is not active"), s).
Proof.
  intros Hids Hschema Hin Hid Huser Hstatus.
  rewrite run_fundAccountProcedure, run_fundAccount by assumption.
  rewrite <- Hid, <- Huser, find_byIdAndOwner by assumption.
  destruct (String.eqb_spec (acc_status a) "active"); [contradiction | reflexivity].
Qed.

Lemma fundAccount_inactive_witness :
  run (fundAccountProcedure 7 20 20 (cardFunding 50%float)) storeInactive
  = (Err (TRPCError BAD_REQUEST "Account is not active"), storeInactive).
Proof.
  apply (fundAccount_inactive storeInactive 7 20 20 (cardFunding 50%float)
           (mkAccount 1 7 "1234567890" checking 100%float "inactive")).
  - unfold uniqueIds. vm_compute. constructor; [intros [] | constructor].
  - reflexivity.
  - left. reflexivity.
  - reflexivity.
  - reflexivity.
  - discriminate.
Defined.

(** C10.  On an input the schema accepted, the handler's own test
    [amount <= 0] is false, and [fundAccount] never fails with
    "Funding amount must be greater than zero". *)
Theorem fundAccount_amount_recheck_unreachable
    (s : Store) (user : Z) (dbNow jsNow : Timestamp) (input : FundInput) :
  fundAccountSchema input = true ->
  (Js.parseFloat_toString (fi_amount input) <=? 0)%float = false
  /\ forall code,
       fst (run (fundAccount user dbNow jsNow input) s)
       <> Err (TRPCError code "Funding amount must be greater than zero").
Proof.
  intros Hschema.
  pose proof (fundAccountSchema_amount input Hschema) as Hpos.
  split.
  - rewrite (parseFloat_toString_positive _ Hpos).
    now destruct (positive_number _ Hpos).
  - intros code. rewrite run_fundAccount by assumption.
    destruct (find _ (accounts s)) as [account |]; [| discriminate].
    destruct (String.eqb (acc_status account) "active"); discriminate.
Qed.

Lemma fundAccount_amount_recheck_unreachable_witness :
  (Js.parseFloat_toString (fi_amount (cardFunding 50%float)) <=? 0)%float = false
  /\ forall code,
       fst (run (fundAccount 7 20 20 (cardFunding 50%float)) storeFundedOnce)
       <> Err (TRPCError code "Funding amount must be greater than zero").
Proof.
  apply (fundAccount_amount_recheck_unreachable storeFundedOnce 7 20 20
           (cardFunding 50%float)).
  reflexivity.
Defined.

(* ===================================================================== *)
(** ** Properties: reading the history *)
(* ===================================================================== *)

Section Ordering.

Context {T : Type}.
Variable le : T -> T -> bool.
Hypothesis le_total : forall x y, le x y = false -> le y x = true.
Hypothesis le_trans : forall x y z, le x y = true -> le y z = true -> le x z = true.

Lemma insertBy_perm (x : T) (l : list T) : Permutation (Db.insertBy le x l) (x :: l).
Proof.
  induction l as [| y l IH]; cbn [Db.insertBy]; [reflexivity |].
  destruct (le x y); [reflexivity |].
  rewrite IH. apply perm_swap.
Qed.

Lemma sortBy_perm (l : list T) : Permutation (Db.sortBy le l) l.
Proof.
  induction l as [| x l IH]; cbn [Db.sortBy]; [reflexivity |].
  rewrite insertBy_perm. now constructor.
Qed.

Lemma insertBy_sorted (x : T) (l : list T) :
  StronglySorted (fun a b => le a b = true) l ->
  StronglySorted (fun a b => le a b = true) (Db.insertBy le x l).
Proof.
  induction l as [| y l IH]; intros Hsorted; cbn [Db.insertBy].
  - repeat constructor.
  - inversion Hsorted as [| ? ? Hl Hy]; subst.
    destruct (le x y) eqn:Hxy.
    + constructor; [exact Hsorted |].
      constructor; [exact Hxy |].
      eapply Forall_impl; [| exact Hy]. intros z Hz. eapply le_trans; eassumption.
    + constructor; [now apply IH |].
      eapply Permutation_Forall; [symmetry; apply insertBy_perm |].
      constructor; [now apply le_total | exact Hy].
Qed.

Lemma sortBy_sorted (l : list T) :
  StronglySorted (fun a b => le a b = true) (Db.sortBy le l).
Proof.
  induction l as [| x l IH]; cbn [Db.sortBy]; [constructor |].
  now apply insertBy_sorted.
Qed.

End Ordering.

Section History.

Lemma sortBy_desc_createdAt_newestFirst (l : list Transaction) :
  newestFirst (Db.sortBy Db.desc_createdAt l).
Proof.
  unfold newestFirst.
  assert (StronglySorted (fun a b => Db.desc_createdAt a b = true)
            (Db.sortBy Db.desc_createdAt l)) as Hsorted.
  { apply sortBy_sorted; unfold Db.desc_createdAt; intros; lia. }
  induction Hsorted as [| x r _ IH Hx]; constructor; [exact IH |].
  eapply Forall_impl; [| exact Hx].
  unfold Db.desc_createdAt. intros y Hy. lia.
Qed.

(** The loop of [getTransactions] appends one entry per row, in order, each
    with the type of the account the row's [accountId] leads to, and only
    reads the store. *)
Lemma run_enrichTransactions (s : Store) (rows : list Transaction) :
  forall enriched,
    run (enrichTransactions rows enriched) s
    = (Ok (enriched
           ++ map (fun t => mkEnriched t
                              (option_map acc_accountType
                                 (find (byId (tx_accountId t)) (accounts s))))
                  rows), s).
Proof.
  induction rows as [| t rows IH]; intros enriched; cbn [enrichTransactions run map].
  - now rewrite app_nil_r.
  - unfold Db.selectAccount. rewrite IH, <- app_assoc. reflexivity.
Qed.

Lemma run_getTransactions (s : Store) (user accountId : Z) :
  run (getTransactions user accountId) s =
  match find (byIdAndOwner accountId user) (accounts s) with
  | None => (Err (TRPCError NOT_FOUND "Account not found"), s)
  | Some _ =>
      (Ok (map (fun t => mkEnriched t
                           (option_map acc_accountType
                              (find (byId (tx_accountId t)) (accounts s))))
               (Db.sortBy Db.desc_createdAt
                  (filter (ofAccount accountId) (transactions s)))), s)
  end.
Proof.
  unfold getTransactions. cbn [run]. unfold Db.selectAccount at 1.
  destruct (find _ (accounts s)); [| reflexivity].
  cbn [run]. unfold Db.selectTransactions. now rewrite run_enrichTransactions.
Qed.

End History.

(** C8.  For an account the caller owns, [getTransactions] returns the
    transactions of that account, all of them and no other, most recent
    [createdAt] first, each with the account's [accountType] attached; the
    store after the call is the store before it. *)
Theorem getTransactions_newest_first
    (s : Store) (user accountId : Z) (a : Account) :
  uniqueIds s ->
  In a (accounts s) ->
  acc_id a = accountId ->
  acc_userId a = user ->
  exists entries,
    run (getTransactionsProcedure user accountId) s = (Ok entries, s)
    /\ Permutation (map et_transaction entries)
                   (filter (ofAccount accountId) (transactions s))
    /\ newestFirst (map et_transaction entries)
    /\ Forall (fun e => et_accountType e = Some (acc_accountType a)) entries.
Proof.
  intros Hids Hin <- <-.
  eexists. split; [| split; [| split]].
  - unfold getTransactionsProcedure, procedure.
    rewrite run_getTransactions, find_byIdAndOwner by assumption.
    reflexivity.
  - rewrite map_map. cbn [et_transaction]. rewrite map_id.
    apply sortBy_perm.
  - rewrite map_map. cbn [et_transaction]. rewrite map_id.
    apply sortBy_desc_createdAt_newestFirst.
  - apply Forall_forall. intros e (t & <- & Ht)%in_map_iff.
    cbn [et_accountType].
    apply (Permutation_in _ (sortBy_perm _ _)) in Ht.
    apply filter_In in Ht as [_ Ht]. unfold ofAccount in Ht.
    apply Z.eqb_eq in Ht. rewrite Ht, find_byId by assumption.
    reflexivity.
Qed.

Lemma getTransactions_newest_first_witness :
  exists entries,
    run (getTransactionsProcedure 7 1) storeFundedTwice = (Ok entries, storeFundedTwice)
    /\ Permutation (map et_transaction entries)
                   (filter (ofAccount 1) (transactions storeFundedTwice))
    /\ newestFirst (map et_transaction entries)
    /\ Forall (fun e => et_accountType e = Some checking) entries.
Proof.
  apply (getTransactions_newest_first storeFundedTwice 7 1
           (mkAccount 1 7 "1234567890" checking 150%float "active")).
  - unfold uniqueIds. vm_compute. constructor; [intros [] | constructor].
  - left. reflexivity.
  - reflexivity.
  - reflexivity.
Defined.

(* ===================================================================== *)
(** ** Properties: the balance invariant *)
(* ===================================================================== *)

Section Ledger.

Lemma uniqueAccountNumber_reads (draws : nat -> Z) (s : Store) (fuel : nat) :
  forall i, snd (run (uniqueAccountNumber fuel draws i) s) = s.
Proof.
  induction fuel as [| fuel IH]; intros i; cbn [uniqueAccountNumber run].
  - reflexivity.
  - unfold Db.selectAccount. destruct (find _ (accounts s)); [apply IH | reflexivity].
Qed.

(** A number the loop returns is held by no account. *)
Lemma uniqueAccountNumber_free (draws : nat -> Z) (s : Store) (fuel : nat) :
  forall i n s',
    run (uniqueAccountNumber fuel draws i) s = (Ok n, s') ->
    find (byAccountNumber n) (accounts s) = None.
Proof.
  induction fuel as [| fuel IH]; intros i n s'; cbn [uniqueAccountNumber run].
  - discriminate.
  - unfold Db.selectAccount.
    destruct (find _ (accounts s)) eqn:Hfind; [apply IH |].
    now intros [= <- _].
Qed.

(** [createAccount] either leaves the store alone or inserts one account,
    with balance zero, of a type the owner had no account of and with a
    number no account held. *)
Lemma createAccount_store (s : Store) (user : Z) (draws : nat -> Z) (fuel : nat)
    (accountType : AccountType) :
  snd (run (createAccount user draws fuel accountType) s) = s
  \/ exists accountNumber,
       find (byOwnerAndType user accountType) (accounts s) = None
       /\ find (byAccountNumber accountNumber) (accounts s) = None
       /\ snd (run (createAccount user draws fuel accountType) s)
          = snd (Db.insertAccount
                   (mkAccountValues user accountNumber accountType PrimFloat.zero "active")
                   s).
Proof.
  destruct (run (createAccount user draws fuel accountType) s) as [o s'] eqn:Hrun.
  cbn [snd]. revert Hrun.
  unfold createAccount. cbn [run]. unfold Db.selectAccount at 1.
  destruct (find _ (accounts s)) eqn:Hexisting; [intros [= _ <-]; now left |].
  rewrite run_bind.
  pose proof (uniqueAccountNumber_reads draws s fuel 0%nat) as Hreads.
  pose proof (uniqueAccountNumber_free draws s fuel 0%nat) as Hfree.
  destruct (run (uniqueAccountNumber fuel draws 0) s) as [[n | e |] s0];
    cbn [snd] in Hreads; subst s0; try (intros [= _ <-]; now left).
  intros Hrun. right. exists n.
  split; [reflexivity |]. split; [now apply (Hfree n s) |].
  revert Hrun. cbn [run].
  destruct (Db.insertAccount _ s) as [[] s1]. cbn [snd].
  unfold Db.selectAccount.
  destruct (find _ (accounts s1)); intros [= _ <-]; reflexivity.
Qed.

Lemma no_deposit_beyond (l : list Transaction) (n id : Z) :
  Forall (fun t => tx_accountId t <= n) l -> n < id ->
  filter (completedDeposit id) l = [].
Proof.
  intros Hall Hlt. induction Hall as [| t l Ht _ IH]; cbn [filter]; [reflexivity |].
  unfold completedDeposit at 1.
  destruct (Z.eqb_spec (tx_accountId t) id); [lia | exact IH].
Qed.

(** Inserting an account keeps the invariant: the new account has balance
    zero and no transaction refers to its id yet. *)
Lemma insertAccount_invariant (s : Store) (v : AccountValues) :
  av_balance v = PrimFloat.zero ->
  idsIssued s /\ balancesMatch s ->
  idsIssued (snd (Db.insertAccount v s)) /\ balancesMatch (snd (Db.insertAccount v s)).
Proof.
  intros Hzero [[Hacc Htx] Hbal].
  unfold idsIssued, balancesMatch, Db.insertAccount in *. cbn [snd accounts transactions accountSeq].
  repeat split.
  - apply Forall_app. split.
    + eapply Forall_impl; [| exact Hacc]. cbn beta. intros; lia.
    + constructor; [cbn [acc_id]; lia | constructor].
  - eapply Forall_impl; [| exact Htx]. cbn beta. intros; lia.
  - apply Forall_app. split.
    + eapply Forall_impl; [| exact Hbal]. cbn beta. intros a ->. reflexivity.
    + constructor; [| constructor]. cbn [acc_balance acc_id].
      unfold runningTotal. cbn [transactions].
      rewrite (no_deposit_beyond _ (accountSeq s)) by (assumption || lia).
      exact Hzero.
Qed.

Lemma runningTotal_snoc (s s' : Store) (id : Z) (t : Transaction) :
  transactions s' = transactions s ++ [t] ->
  runningTotal s' id
  = if completedDeposit id t
    then PrimFloat.add (runningTotal s id) (tx_amount t)
    else runningTotal s id.
Proof.
  unfold runningTotal. intros ->. rewrite filter_app. cbn [filter].
  destruct (completedDeposit id t).
  - now rewrite map_app, fold_left_app.
  - now rewrite app_nil_r.
Qed.

Lemma completedDeposit_depositRow (dbNow jsNow : Timestamp) (input : FundInput)
    (s : Store) (id : Z) :
  completedDeposit id (depositRow dbNow jsNow input s) = (fi_accountId input =? id).
Proof.
  unfold completedDeposit, depositRow. cbn [tx_accountId tx_status tx_type].
  change (String.eqb "completed" "completed") with true.
  change (String.eqb "deposit" "deposit") with true.
  now rewrite !andb_true_r.
Qed.

(** A request served alone keeps the invariant. *)
Lemma serve_invariant (s : Store) (r : Request) :
  idsIssued s /\ balancesMatch s ->
  idsIssued (serve s r) /\ balancesMatch (serve s r).
Proof.
  intros Hinv. destruct r as [user draws fuel accountType | user
                             | user dbNow jsNow input | user accountId];
    cbn [serve].
  - unfold createAccountProcedure, procedure.
    destruct (createAccount_store s user draws fuel accountType)
      as [-> | (n & _ & _ & ->)];
      [exact Hinv | now apply insertAccount_invariant].
  - exact Hinv.
  - unfold fundAccountProcedure, procedure.
    destruct (fundAccountSchema input) eqn:Hschema; [| exact Hinv].
    rewrite run_fundAccount by assumption.
    destruct (find _ (accounts s)) as [account |] eqn:Hfind; [| exact Hinv].
    destruct (String.eqb (acc_status account) "active"); [| exact Hinv].
    apply find_some in Hfind as [Hin Hmatch].
    unfold byIdAndOwner in Hmatch. apply andb_prop in Hmatch as [Hid%Z.eqb_eq _].
    destruct Hinv as [[Hacc Htx] Hbal].
    pose proof (proj1 (Forall_forall _ _) Hbal account Hin) as Hbalance.
    pose proof (proj1 (Forall_forall _ _) Hacc account Hin) as Hissued.
    cbn beta in Hbalance, Hissued.
    cbv zeta. cbn [snd].
    unfold idsIssued, balancesMatch. cbn [accounts transactions accountSeq].
    repeat split.
    + apply Forall_map. eapply Forall_impl; [| exact Hacc]. cbn beta.
      intros a Ha. now destruct (byId (fi_accountId input) a).
    + apply Forall_app. split; [exact Htx |].
      constructor; [| constructor]. unfold depositRow. cbn [tx_accountId]. lia.
    + apply Forall_map. apply Forall_forall. intros a Ha.
      pose proof (proj1 (Forall_forall _ _) Hbal a Ha) as Hbalance_a.
      cbn beta in Hbalance_a. unfold byId.
      destruct (Z.eqb_spec (acc_id a) (fi_accountId input)) as [Ha_id | Ha_id].
      * cbn [Db.setBalance acc_balance acc_id].
        rewrite (runningTotal_snoc s _ _ (depositRow dbNow jsNow input s)) by reflexivity.
        rewrite completedDeposit_depositRow, Ha_id, Z.eqb_refl.
        unfold depositRow at 1. cbn [tx_amount]. now rewrite Hbalance, Hid.
      * rewrite (runningTotal_snoc s _ _ (depositRow dbNow jsNow input s)) by reflexivity.
        rewrite completedDeposit_depositRow.
        destruct (Z.eqb_spec (fi_accountId input) (acc_id a)); [congruence | exact Hbalance_a].
  - unfold getTransactionsProcedure, procedure.
    rewrite run_getTransactions. now destruct (find _ (accounts s)).
Qed.

Lemma fold_serve_invariant (rs : list Request) :
  forall s,
    idsIssued s /\ balancesMatch s ->
    idsIssued (fold_left serve rs s) /\ balancesMatch (fold_left serve rs s).
Proof.
  induction rs as [| r rs IH]; intros s Hinv; cbn [fold_left]; [exact Hinv |].
  apply IH. now apply serve_invariant.
Qed.

(** Without a new transaction, a request leaves every existing account row
    as it was; at most it adds rows. *)
Lemma serve_extends_accounts (s : Store) (r : Request) :
  transactions (serve s r) = transactions s ->
  exists added, accounts (serve s r) = accounts s ++ added.
Proof.
  destruct r as [user draws fuel accountType | user
                | user dbNow jsNow input | user accountId];
    cbn [serve].
  - unfold createAccountProcedure, procedure.
    destruct (createAccount_store s user draws fuel accountType)
      as [-> | (n & _ & _ & ->)]; intros _.
    + exists []. now rewrite app_nil_r.
    + unfold Db.insertAccount. cbn [snd accounts]. now eexists.
  - intros _. exists []. now rewrite app_nil_r.
  - unfold fundAccountProcedure, procedure.
    destruct (fundAccountSchema input) eqn:Hschema;
      [| intros _; exists []; now rewrite app_nil_r].
    rewrite run_fundAccount by assumption.
    destruct (find _ (accounts s)) as [account |];
      [| intros _; exists []; now rewrite app_nil_r].
    destruct (String.eqb (acc_status account) "active");
      [| intros _; exists []; now rewrite app_nil_r].
    cbv zeta. cbn [snd transactions]. intros Hsame.
    apply (f_equal (@List.length _)) in Hsame.
    rewrite length_app in Hsame. cbn [List.length] in Hsame. lia.
  - unfold getTransactionsProcedure, procedure.
    rewrite run_getTransactions. intros _. exists [].
    rewrite app_nil_r. now destruct (find _ (accounts s)).
Qed.

End Ledger.

(** C1, as the source has it.  After any sequence of requests served one
    after the other from the empty store, the balance of every account is
    the running total of its 'completed' 'deposit' transactions: their
    amounts added one at a time in creation order from 0, in double
    arithmetic, each addition rounded; and a further request that adds no
    transaction leaves every account row, its balance included, as it
    was. *)
Theorem balance_is_running_total (rs : list Request) :
  Forall (fun a => acc_balance a = runningTotal (serveAll rs) (acc_id a))
         (accounts (serveAll rs))
  /\ forall r,
       transactions (serve (serveAll rs) r) = transactions (serveAll rs) ->
       exists added, accounts (serve (serveAll rs) r) = accounts (serveAll rs) ++ added.
Proof.
  split.
  - apply (fold_serve_invariant rs emptyStore).
    unfold idsIssued, balancesMatch, emptyStore. cbn [accounts transactions].
    repeat split; constructor.
  - intros r. apply serve_extends_accounts.
Qed.

Lemma balance_is_running_total_witness :
  Forall (fun a => acc_balance a = runningTotal storeFundedTwice (acc_id a))
         (accounts storeFundedTwice)
  /\ forall r,
       transactions (serve storeFundedTwice r) = transactions storeFundedTwice ->
       exists added, accounts (serve storeFundedTwice r) = accounts storeFundedTwice ++ added.
Proof.
  exact (balance_is_running_total
           [aliceOpens; FundAccount 7 10 10 (cardFunding 100%float);
            FundAccount 7 20 20 (cardFunding 50%float)]).
Defined.

(** C1, as specified (the balance equals the sum of the amounts), does not
    hold of the source.  After deposits of 0.1, 0.2 and 0.3 the balance is
    0.6000000000000001, which is not the exact sum of the three amounts, and
    the same amounts added in the order [getTransactions] lists them give
    0.6.  After deposits of 2^53, 1 and 1 the balance is 2^53, the exact
    sum being 2^53 + 2, which the amounts added as listed do give. *)
Lemma balance_is_not_the_sum :
  balancesAreExactSums storeOfTenths = false
  /\ map acc_balance (accounts storeOfTenths) = [0x1.3333333333334p-1%float]
  /\ totalAsListed storeOfTenths 7 1 = Some 0x1.3333333333333p-1%float
  /\ balancesAreExactSums storeOfLargeDeposit = false
  /\ map acc_balance (accounts storeOfLargeDeposit) = [9007199254740992%float]
  /\ option_map Qreduction.Qred (exactTotal storeOfLargeDeposit 1)
     = Some (QArith_base.Qmake 9007199254740994 1)
  /\ totalAsListed storeOfLargeDeposit 7 1 = Some 9007199254740994%float.
Proof. repeat split; vm_compute; reflexivity. Qed.

(* ===================================================================== *)
(** ** Properties: where the handler of fundAccount goes wrong *)
(* ===================================================================== *)

Section Oldest.

(** The first row of an ascending sort is at most as recent as every row. *)
Lemma hd_sortBy_asc_createdAt (l : list Transaction) (old : Transaction) :
  In old l ->
  exists first,
    hd_error (Db.sortBy Db.asc_createdAt l) = Some first
    /\ tx_createdAt first <= tx_createdAt old.
Proof.
  intros Hin.
  assert (StronglySorted (fun a b => Db.asc_createdAt a b = true)
            (Db.sortBy Db.asc_createdAt l)) as Hsorted
    by (apply sortBy_sorted; unfold Db.asc_createdAt; intros; lia).
  apply (Permutation_in _ (Permutation_sym (sortBy_perm Db.asc_createdAt l))) in Hin.
  destruct (Db.sortBy Db.asc_createdAt l) as [| first rest]; [contradiction |].
  exists first. split; [reflexivity |].
  destruct Hin as [-> | Hin]; [lia |].
  inversion Hsorted as [| ? ? _ Hall]; subst.
  pose proof (proj1 (Forall_forall _ _) Hall old Hin) as Hle.
  unfold Db.asc_createdAt in Hle. lia.
Qed.

(** Once the account has a transaction older than the one being inserted,
    the transaction [fundAccount] returns is not the one it inserted. *)
Lemma fundAccount_returns_an_older_transaction
    (s : Store) (user : Z) (dbNow jsNow : Timestamp) (input : FundInput)
    (account : Account) (old : Transaction) :
  fundAccountSchema input = true ->
  find (byIdAndOwner (fi_accountId input) user) (accounts s) = Some account ->
  acc_status account = "active"%string ->
  In old (transactions s) ->
  tx_accountId old = fi_accountId input ->
  tx_createdAt old < dbNow ->
  exists r s',
    run (fundAccountProcedure user dbNow jsNow input) s = (Ok r, s')
    /\ In (depositRow dbNow jsNow input s) (transactions s')
    /\ fr_transaction r <> Some (depositRow dbNow jsNow input s).
Proof.
  intros Hschema Hfind Hactive Hold Hold_id Hold_time.
  rewrite run_fundAccountProcedure, run_fundAccount, Hfind, Hactive by assumption.
  change (String.eqb "active" "active") with true. cbv iota zeta.
  do 2 eexists. split; [reflexivity |]. cbn [transactions fr_transaction]. split.
  - apply in_or_app. right. now left.
  - destruct (hd_sortBy_asc_createdAt
                (filter (ofAccount (fi_accountId input))
                        (transactions s ++ [depositRow dbNow jsNow input s])) old)
      as (first & -> & Hfirst).
    + apply filter_In. split; [apply in_or_app; now left |].
      unfold ofAccount. now apply Z.eqb_eq.
    + intros [= ->]. unfold depositRow in Hfirst. cbn [tx_createdAt] in Hfirst. lia.
Qed.

End Oldest.

(** C3, at a second funding.  The account was funded with 100 at time 10
    (transaction 1); funding it with 50 at time 20 inserts transaction 2 and
    stores the balance 150, which is the [newBalance] returned; but the
    [transaction] returned is transaction 1, of amount 100, not the one this
    call inserted. *)
Theorem fundAccount_second_call_returns_first_transaction :
  exists r,
    run (fundAccountProcedure 7 20 20 (cardFunding 50%float)) storeFundedOnce
    = (Ok r, storeFundedTwice)
    /\ map tx_id (transactions storeFundedOnce) = [1]
    /\ map tx_id (transactions storeFundedTwice) = [1; 2]
    /\ option_map tx_id (fr_transaction r) = Some 1
    /\ option_map tx_amount (fr_transaction r) = Some 100%float
    /\ fr_newBalance r = 150%float
    /\ map acc_balance (accounts storeFundedTwice) = [150%float].
Proof.
  eexists. split; [vm_compute; reflexivity |].
  repeat split; reflexivity.
Qed.

(** C2, at two concurrent fundings.  Two fundings of 100 of the same fresh
    account, their handlers taking turns at each await, both succeed and
    both report the new balance 100; two transactions are recorded and the
    stored balance is 100.  Served one after the other, the same two
    requests leave the balance 200. *)
Theorem fundAccount_concurrent_lost_update :
  exists s' r1 r2,
    steps (storeOpened, twoFundings) (s', [Return r1; Return r2])
    /\ map acc_balance (accounts storeOpened) = [0%float]
    /\ map acc_balance (accounts s') = [100%float]
    /\ List.length (transactions s') = 2%nat
    /\ fr_newBalance r1 = 100%float
    /\ fr_newBalance r2 = 100%float
    /\ map acc_balance
         (accounts (fold_left serve
                      [FundAccount 7 10 10 (cardFunding 100%float);
                       FundAccount 7 10 10 (cardFunding 100%float)] storeOpened))
       = [200%float].
Proof.
  destruct (schedule takingTurns (storeOpened, twoFundings)) as [[s' ps] |] eqn:Hrace;
    [| discriminate].
  pose proof (schedule_steps _ _ _ Hrace) as Hsteps.
  vm_compute in Hrace. injection Hrace as <- <-.
  do 3 eexists. split; [exact Hsteps |].
  repeat split; reflexivity.
Qed.

(* ===================================================================== *)
(** ** Properties: the store's constraints, and a funding served alone *)
(* ===================================================================== *)

Section Constraints.

Lemma NoDup_map_snoc {T K : Type} (key : T -> K) (l : list T) (x : T) :
  NoDup (map key l) ->
  (forall y, In y l -> key y <> key x) ->
  NoDup (map key (l ++ [x])).
Proof.
  intros Hnodup Hfresh. rewrite map_app. apply NoDup_app.
  - exact Hnodup.
  - repeat constructor. intros [].
  - intros k (y & <- & Hy)%in_map_iff [Heq | []]. now apply (Hfresh y Hy).
Qed.

(** Changing balances changes no key. *)
Lemma map_key_updateBalance {K : Type} (key : Account -> K) (p : Account -> bool)
    (balance : Js.number) (l : list Account) :
  (forall a, key (Db.setBalance balance a) = key a) ->
  map key (map (fun a => if p a then Db.setBalance balance a else a) l) = map key l.
Proof.
  intros Hkey. rewrite map_map. apply map_ext.
  intros a. now destruct (p a).
Qed.

Lemma serve_constraints (s : Store) (r : Request) :
  idsIssued s ->
  uniqueIds s /\ uniqueAccountNumbers s /\ oneAccountPerType s ->
  uniqueIds (serve s r) /\ uniqueAccountNumbers (serve s r)
  /\ oneAccountPerType (serve s r).
Proof.
  intros [Hissued _] Hcons.
  destruct r as [user draws fuel accountType | user
                | user dbNow jsNow input | user accountId];
    cbn [serve].
  - unfold createAccountProcedure, procedure.
    destruct (createAccount_store s user draws fuel accountType)
      as [-> | (n & Htype & Hnumber & ->)]; [exact Hcons |].
    destruct Hcons as (Hids & Hnumbers & Htypes).
    unfold uniqueIds, uniqueAccountNumbers, oneAccountPerType, Db.insertAccount.
    cbn [snd accounts]. repeat split.
    + apply NoDup_map_snoc; [exact Hids |].
      intros y Hy. cbn [acc_id].
      pose proof (proj1 (Forall_forall _ _) Hissued y Hy) as Hle.
      cbn beta in Hle. lia.
    + apply NoDup_map_snoc; [exact Hnumbers |].
      intros y Hy. cbn [acc_accountNumber].
      pose proof (find_none _ _ Hnumber y Hy) as Hno. unfold byAccountNumber in Hno.
      now apply String.eqb_neq.
    + apply NoDup_map_snoc; [exact Htypes |].
      intros y Hy. cbn [acc_userId acc_accountType]. intros [= Huser Hty].
      pose proof (find_none _ _ Htype y Hy) as Hno. unfold byOwnerAndType in Hno.
      rewrite Huser, Hty, Z.eqb_refl in Hno. now destruct accountType.
  - exact Hcons.
  - unfold fundAccountProcedure, procedure.
    destruct (fundAccountSchema input) eqn:Hschema; [| exact Hcons].
    rewrite run_fundAccount by assumption.
    destruct (find _ (accounts s)) as [account |]; [| exact Hcons].
    destruct (String.eqb (acc_status account) "active"); [| exact Hcons].
    cbv zeta. cbn [snd].
    unfold uniqueIds, uniqueAccountNumbers, oneAccountPerType. cbn [accounts].
    now rewrite !map_key_updateBalance by reflexivity.
  - unfold getTransactionsProcedure, procedure.
    rewrite run_getTransactions. now destruct (find _ (accounts s)).
Qed.

(** A request issues ids from the counter only. *)
Lemma serve_idsIssued (s : Store) (r : Request) :
  idsIssued s -> idsIssued (serve s r).
Proof.
  intros Hissued. destruct r as [user draws fuel accountType | user
                                | user dbNow jsNow input | user accountId];
    cbn [serve].
  - unfold createAccountProcedure, procedure.
    destruct (createAccount_store s user draws fuel accountType)
      as [-> | (n & _ & _ & ->)]; [exact Hissued |].
    destruct Hissued as [Hacc Htx].
    unfold idsIssued, Db.insertAccount. cbn [snd accounts transactions accountSeq].
    split.
    + apply Forall_app. split.
      * eapply Forall_impl; [| exact Hacc]. cbn beta. intros; lia.
      * constructor; [cbn [acc_id]; lia | constructor].
    + eapply Forall_impl; [| exact Htx]. cbn beta. intros; lia.
  - exact Hissued.
  - unfold fundAccountProcedure, procedure.
    destruct (fundAccountSchema input) eqn:Hschema; [| exact Hissued].
    rewrite run_fundAccount by assumption.
    destruct (find _ (accounts s)) as [account |] eqn:Hfind; [| exact Hissued].
    destruct (String.eqb (acc_status account) "active"); [| exact Hissued].
    apply find_some in Hfind as [Hin Hmatch].
    unfold byIdAndOwner in Hmatch. apply andb_prop in Hmatch as [Hid%Z.eqb_eq _].
    destruct Hissued as [Hacc Htx].
    pose proof (proj1 (Forall_forall _ _) Hacc account Hin) as Hle. cbn beta in Hle.
    cbv zeta. cbn [snd]. unfold idsIssued. cbn [accounts transactions accountSeq].
    split.
    + apply Forall_map. eapply Forall_impl; [| exact Hacc]. cbn beta.
      intros a Ha. now destruct (byId (fi_accountId input) a).
    + apply Forall_app. split; [exact Htx |].
      constructor; [| constructor]. unfold depositRow. cbn [tx_accountId]. lia.
  - unfold getTransactionsProcedure, procedure.
    rewrite run_getTransactions. now destruct (find _ (accounts s)).
Qed.

Lemma fold_serve_constraints (rs : list Request) :
  forall s,
    idsIssued s ->
    uniqueIds s /\ uniqueAccountNumbers s /\ oneAccountPerType s ->
    uniqueIds (fold_left serve rs s) /\ uniqueAccountNumbers (fold_left serve rs s)
    /\ oneAccountPerType (fold_left serve rs s).
Proof.
  induction rs as [| r rs IH]; intros s Hissued Hcons; cbn [fold_left]; [exact Hcons |].
  apply IH; [now apply serve_idsIssued | now apply serve_constraints].
Qed.

End Constraints.

(** X1.  After any sequence of requests served one after the other from the
    empty store, no two accounts share an id, no two accounts share an
    account number, and no owner has two accounts of the same type. *)
Theorem store_constraints_hold (rs : list Request) :
  uniqueIds (serveAll rs)
  /\ uniqueAccountNumbers (serveAll rs)
  /\ oneAccountPerType (serveAll rs).
Proof.
  apply (fold_serve_constraints rs emptyStore).
  - unfold idsIssued, emptyStore. cbn [accounts transactions]. split; constructor.
  - unfold uniqueIds, uniqueAccountNumbers, oneAccountPerType, emptyStore.
    cbn [accounts map]. repeat split; constructor.
Qed.

(** X2.  A funding of the caller's active account, served alone, appends
    exactly one transaction (a 'completed' 'deposit' of the amount) and
    returns as [newBalance] the previous balance plus the amount.  After
    it the account is still in the store, with that balance and its other
    columns unchanged; no account was added or removed; every row with the
    funded id carries the new balance and every other row is as it was. *)
Theorem fundAccount_alone_applies_increment
    (s : Store) (user : Z) (dbNow jsNow : Timestamp) (input : FundInput) (a : Account) :
  uniqueIds s ->
  fundAccountSchema input = true ->
  In a (accounts s) ->
  acc_id a = fi_accountId input ->
  acc_userId a = user ->
  acc_status a = "active"%string ->
  exists r s',
    run (fundAccountProcedure user dbNow jsNow input) s = (Ok r, s')
    /\ fr_newBalance r = (acc_balance a + fi_amount input)%float
    /\ transactions s' = transactions s ++ [depositRow dbNow jsNow input s]
    /\ completedDeposit (fi_accountId input) (depositRow dbNow jsNow input s) = true
    /\ (exists funded,
          In funded (accounts s')
          /\ accountIdentity funded = accountIdentity a
          /\ acc_balance funded = (acc_balance a + fi_amount input)%float)
    /\ map accountIdentity (accounts s') = map accountIdentity (accounts s)
    /\ (forall b, In b (accounts s') -> acc_id b = fi_accountId input ->
         acc_balance b = fr_newBalance r)
    /\ (forall b, In b (accounts s) -> acc_id b <> fi_accountId input ->
         In b (accounts s')).
Proof.
  intros Hids Hschema Hin Hid Huser Hactive.
  rewrite run_fundAccountProcedure, run_fundAccount by assumption.
  rewrite <- Hid, <- Huser, find_byIdAndOwner, Hactive by assumption.
  change (String.eqb "active" "active") with true. cbv iota zeta.
  do 2 eexists. split; [reflexivity |].
  cbn [fr_newBalance transactions accounts].
  split; [reflexivity |]. split; [reflexivity |].
  split; [rewrite completedDeposit_depositRow, Hid; apply Z.eqb_refl |].
  split; [| split; [| split]].
  - exists (Db.setBalance (acc_balance a + fi_amount input)%float a).
    split; [| split; reflexivity].
    apply in_map_iff. exists a. split; [| exact Hin].
    unfold byId. now rewrite Z.eqb_refl.
  - now apply map_key_updateBalance.
  - intros b (b0 & <- & Hb0)%in_map_iff. unfold byId.
    destruct (Z.eqb_spec (acc_id b0) (acc_id a)); [reflexivity | contradiction].
  - intros b Hb Hne. apply in_map_iff. exists b. split; [| exact Hb].
    unfold byId. destruct (Z.eqb_spec (acc_id b) (acc_id a)); [contradiction | reflexivity].
Qed.

Lemma fundAccount_alone_applies_increment_witness :
  exists r s',
    run (fundAccountProcedure 7 20 20 (cardFunding 50%float)) storeFundedOnce = (Ok r, s')
    /\ fr_newBalance r = (100 + 50)%float
    /\ transactions s'
       = transactions storeFundedOnce
         ++ [depositRow 20 20 (cardFunding 50%float) storeFundedOnce]
    /\ completedDeposit 1 (depositRow 20 20 (cardFunding 50%float) storeFundedOnce) = true
    /\ (exists funded,
          In funded (accounts s')
          /\ accountIdentity funded
             = (1, 7, "1234567890"%string, checking, "active"%string)
          /\ acc_balance funded = (100 + 50)%float)
    /\ map accountIdentity (accounts s') = map accountIdentity (accounts storeFundedOnce)
    /\ (forall b, In b (accounts s') -> acc_id b = 1 -> acc_balance b = fr_newBalance r)
    /\ (forall b, In b (accounts storeFundedOnce) -> acc_id b <> 1 -> In b (accounts s')).
Proof.
  apply (fundAccount_alone_applies_increment storeFundedOnce 7 20 20 (cardFunding 50%float)
           (mkAccount 1 7 "1234567890" checking 100%float "active")).
  - unfold uniqueIds. vm_compute. constructor; [intros [] | constructor].
  - reflexivity.
  - left. reflexivity.
  - reflexivity.
  - reflexivity.
  - reflexivity.
Defined.

(** A worked scenario.  A checking account is created
    with balance 0; funding it with 100 returns [newBalance] 100 and leaves
    one transaction, 'completed'; funding it again with 50 returns
    [newBalance] 150 and leaves two transactions; [getTransactions] then
    returns the two, the later one first. *)
Theorem funding_scenario :
  map acc_balance (accounts storeOpened) = [0%float]
  /\ option_map fr_newBalance
       (match fst (run (fundAccountProcedure 7 10 10 (cardFunding 100%float)) storeOpened)
        with Ok r => Some r | _ => None end) = Some 100%float
  /\ map tx_status (transactions storeFundedOnce) = ["completed"%string]
  /\ option_map fr_newBalance
       (match fst (run (fundAccountProcedure 7 20 20 (cardFunding 50%float)) storeFundedOnce)
        with Ok r => Some r | _ => None end) = Some 150%float
  /\ List.length (transactions storeFundedTwice) = 2%nat
  /\ option_map (map (fun e => tx_id (et_transaction e)))
       (match fst (run (getTransactionsProcedure 7 1) storeFundedTwice)
        with Ok entries => Some entries | _ => None end) = Some [2; 1].
Proof. repeat split; reflexivity. Qed.

(* ===================================================================== *)
(** ** Properties: opening and listing accounts *)
(* ===================================================================== *)

Section Opening.

Lemma find_app_none {T : Type} (p : T -> bool) (l : list T) (x : T) :
  find p l = None -> p x = true -> find p (l ++ [x]) = Some x.
Proof.
  induction l as [| y l IH]; cbn [find app]; intros Hnone Hx.
  - now rewrite Hx.
  - destruct (p y); [discriminate | now apply IH].
Qed.

(** [createAccount] when the owner has no account of the type and draw [k]
    is the first free one. *)
Lemma run_createAccount_free
    (s : Store) (user : Z) (draws : nat -> Z) (fuel k : nat) (accountType : AccountType) :
  find (byOwnerAndType user accountType) (accounts s) = None ->
  (forall j, (j < k)%nat -> taken s draws j) ->
  ~ taken s draws k ->
  (k < fuel)%nat ->
  run (createAccountProcedure user draws fuel accountType) s
  = let created := mkAccount (accountSeq s + 1) user (generateAccountNumber (draws k))
                     accountType PrimFloat.zero "active" in
    (Ok created,
     mkStore (accounts s ++ [created]) (transactions s)
             (accountSeq s + 1) (transactionSeq s)).
Proof.
  intros Hnone Htaken Hfree Hfuel.
  unfold createAccountProcedure, procedure, createAccount.
  cbn [run]. unfold Db.selectAccount at 1. rewrite Hnone.
  rewrite run_bind.
  rewrite (uniqueAccountNumber_from s draws k fuel 0%nat);
    [| lia | intros j Hj; apply Htaken; lia | exact Hfree | lia].
  cbn [run]. unfold Db.insertAccount, Db.selectAccount.
  cbn [accounts av_userId av_accountNumber av_accountType av_balance av_status].
  rewrite find_app_none.
  - reflexivity.
  - unfold taken in Hfree.
    destruct (find (byAccountNumber (generateAccountNumber (draws k))) (accounts s));
      [| reflexivity].
    exfalso. apply Hfree. discriminate.
  - unfold byAccountNumber. cbn [acc_accountNumber]. apply String.eqb_refl.
Qed.

Lemma find_byOwnerAndType_none (s : Store) (user : Z) (accountType : AccountType) :
  (forall a, In a (accounts s) -> acc_userId a = user ->
             acc_accountType a <> accountType) ->
  find (byOwnerAndType user accountType) (accounts s) = None.
Proof.
  intros Hno. apply find_matches_nothing. intros a Ha. unfold byOwnerAndType.
  destruct (Z.eqb_spec (acc_userId a) user) as [Huser | _]; [| reflexivity].
  specialize (Hno a Ha Huser).
  destruct (acc_accountType a), accountType; try reflexivity; contradiction.
Qed.

(** In a list without two rows of one owner and type, the rows of one
    owner have pairwise different types. *)
Lemma owner_types_NoDup (user : Z) (l : list Account) :
  NoDup (map (fun a => (acc_userId a, acc_accountType a)) l) ->
  NoDup (map acc_accountType (filter (byOwner user) l)).
Proof.
  induction l as [| a l IH]; cbn [map filter]; intros Hnodup; [constructor |].
  inversion Hnodup as [| ? ? Hnotin Hrest]; subst.
  unfold byOwner at 1. destruct (Z.eqb_spec (acc_userId a) user) as [Huser | _];
    [| now apply IH].
  cbn [map]. constructor; [| now apply IH].
  intros (b & Htype & Hb)%in_map_iff. apply filter_In in Hb as [Hb Hbuser].
  unfold byOwner in Hbuser. apply Z.eqb_eq in Hbuser.
  apply Hnotin. apply in_map_iff. exists b. split; [| exact Hb].
  now rewrite Hbuser, Htype, Huser.
Qed.

End Opening.



(** X4.  After any sequence of requests served one after the other from the
    empty store, [getAccounts] returns exactly the caller's accounts, in
    creation order, without changing the store; they have pairwise different
    types, so there are at most two. *)
Theorem getAccounts_own_accounts (rs : list Request) (user : Z) :
  exists listed,
    run (getAccounts user) (serveAll rs) = (Ok listed, serveAll rs)
    /\ (forall a, In a listed <-> In a (accounts (serveAll rs)) /\ acc_userId a = user)
    /\ NoDup (map acc_accountType listed)
    /\ (List.length listed <= 2)%nat.
Proof.
  exists (filter (byOwner user) (accounts (serveAll rs))).
  assert (NoDup (map acc_accountType (filter (byOwner user) (accounts (serveAll rs)))))
    as Htypes.
  { apply owner_types_NoDup.
    apply (fold_serve_constraints rs emptyStore).
    - unfold idsIssued, emptyStore. cbn [accounts transactions]. split; constructor.
    - unfold uniqueIds, uniqueAccountNumbers, oneAccountPerType, emptyStore.
      cbn [accounts map]. repeat split; constructor. }
  split; [reflexivity |]. split; [| split].
  - intros a. rewrite filter_In. unfold byOwner. now rewrite Z.eqb_eq.
  - exact Htypes.
  - rewrite <- (length_map acc_accountType).
    change 2%nat with (List.length [checking; savings]).
    apply NoDup_incl_length; [exact Htypes |].
    intros t _. destruct t; cbn; auto.
Qed.

(** X5.  Right after a successful [createAccount], [getAccounts] by the same
    user returns what it returned before, followed by the created account. *)
Theorem getAccounts_after_createAccount
    (s : Store) (user : Z) (draws : nat -> Z) (fuel k : nat) (accountType : AccountType) :
  (forall a, In a (accounts s) -> acc_userId a = user ->
             acc_accountType a <> accountType) ->
  (forall j, (j < k)%nat -> taken s draws j) ->
  ~ taken s draws k ->
  (k < fuel)%nat ->
  exists created before,
    fst (run (createAccountProcedure user draws fuel accountType) s) = Ok created
    /\ fst (run (getAccounts user) s) = Ok before
    /\ fst (run (getAccounts user)
              (snd (run (createAccountProcedure user draws fuel accountType) s)))
       = Ok (before ++ [created]).
Proof.
  intros Hno Htaken Hfree Hfuel.
  rewrite (run_createAccount_free s user draws fuel k accountType);
    try assumption; [| now apply find_byOwnerAndType_none].
  cbv zeta. do 2 eexists. split; [reflexivity |]. split; [reflexivity |].
  cbn [run fst snd getAccounts]. unfold Db.selectAccounts. cbn [fst accounts].
  rewrite filter_app. cbn [filter]. unfold byOwner at 2. cbn [acc_userId].
  now rewrite Z.eqb_refl.
Qed.

Lemma getAccounts_after_createAccount_witness :
  exists created before,
    fst (run (createAccountProcedure 7 (fun _ => 2000000000) 1 savings) storeFundedOnce)
    = Ok created
    /\ fst (run (getAccounts 7) storeFundedOnce) = Ok before
    /\ fst (run (getAccounts 7)
              (snd (run (createAccountProcedure 7 (fun _ => 2000000000) 1 savings)
                        storeFundedOnce)))
       = Ok (before ++ [created]).
Proof.
  apply (getAccounts_after_createAccount storeFundedOnce 7 (fun _ => 2000000000) 1 0
           savings).
  - intros a [<- | []] _. discriminate.
  - intros j Hj. lia.
  - unfold taken. vm_compute. intros H. now apply H.
  - lia.
Defined.

(* ===================================================================== *)
(** ** Properties: what the router never does to the ledger *)
(* ===================================================================== *)

Section AppendOnly.

(** A request adds at most one transaction and touches no existing one. *)
Lemma serve_appends (s : Store) (r : Request) :
  exists added,
    transactions (serve s r) = transactions s ++ added
    /\ (List.length added <= 1)%nat.
Proof.
  assert (exists added, transactions s = transactions s ++ added
                        /\ (List.length added <= 1)%nat) as Hsame
    by (exists []; split; [now rewrite app_nil_r | cbn; lia]).
  destruct r as [user draws fuel accountType | user
                | user dbNow jsNow input | user accountId];
    cbn [serve].
  - unfold createAccountProcedure, procedure.
    destruct (createAccount_store s user draws fuel accountType)
      as [-> | (n & _ & _ & ->)]; exact Hsame.
  - exact Hsame.
  - unfold fundAccountProcedure, procedure.
    destruct (fundAccountSchema input) eqn:Hschema; [| exact Hsame].
    rewrite run_fundAccount by assumption.
    destruct (find _ (accounts s)) as [account |]; [| exact Hsame].
    destruct (String.eqb (acc_status account) "active"); [| exact Hsame].
    cbv zeta. cbn [snd transactions]. eexists. split; [reflexivity | cbn; lia].
  - unfold getTransactionsProcedure, procedure.
    rewrite run_getTransactions. now destruct (find _ (accounts s)).
Qed.

(** A request adds accounts at the end and, of the existing ones, changes
    at most the balance. *)
Lemma serve_keeps_identity (s : Store) (r : Request) :
  exists added,
    map accountIdentity (accounts (serve s r)) = map accountIdentity (accounts s) ++ added.
Proof.
  assert (exists added, map accountIdentity (accounts s)
                        = map accountIdentity (accounts s) ++ added) as Hsame
    by (exists []; now rewrite app_nil_r).
  destruct r as [user draws fuel accountType | user
                | user dbNow jsNow input | user accountId];
    cbn [serve].
  - unfold createAccountProcedure, procedure.
    destruct (createAccount_store s user draws fuel accountType)
      as [-> | (n & _ & _ & ->)]; [exact Hsame |].
    unfold Db.insertAccount. cbn [snd accounts]. rewrite map_app. now eexists.
  - exact Hsame.
  - unfold fundAccountProcedure, procedure.
    destruct (fundAccountSchema input) eqn:Hschema; [| exact Hsame].
    rewrite run_fundAccount by assumption.
    destruct (find _ (accounts s)) as [account |]; [| exact Hsame].
    destruct (String.eqb (acc_status account) "active"); [| exact Hsame].
    cbv zeta. cbn [snd accounts].
    rewrite map_key_updateBalance by reflexivity. exact Hsame.
  - unfold getTransactionsProcedure, procedure.
    rewrite run_getTransactions. now destruct (find _ (accounts s)).
Qed.

Lemma account_id_survives (l l' : list Account)
    (added : list (Z * Z * string * AccountType * string)) (id : Z) :
  map accountIdentity l' = map accountIdentity l ++ added ->
  (exists a, In a l /\ acc_id a = id) ->
  exists a', In a' l' /\ acc_id a' = id.
Proof.
  intros Hmap (a & Ha & Hid).
  assert (In (accountIdentity a) (map accountIdentity l')) as Hin
    by (rewrite Hmap; apply in_or_app; left; now apply in_map).
  apply in_map_iff in Hin as (a' & Heq & Ha').
  exists a'. split; [exact Ha' |].
  unfold accountIdentity in Heq. now injection Heq as -> _ _ _ _.
Qed.

(** A request keeps every account active and every transaction a completed
    deposit of a positive amount into an existing account. *)
Lemma serve_deposits_only (s : Store) (r : Request) :
  Forall (fun a => acc_status a = "active"%string) (accounts s) /\ depositsOnly s ->
  Forall (fun a => acc_status a = "active"%string) (accounts (serve s r))
  /\ depositsOnly (serve s r).
Proof.
  intros [Hactive Hdeposits].
  destruct (serve_keeps_identity s r) as [added Hidentity]. split.
  - clear Hidentity Hdeposits.
    destruct r as [user draws fuel accountType | user
                  | user dbNow jsNow input | user accountId]; cbn [serve].
    + unfold createAccountProcedure, procedure.
      destruct (createAccount_store s user draws fuel accountType)
        as [-> | (n & _ & _ & ->)]; [exact Hactive |].
      unfold Db.insertAccount. cbn [snd accounts].
      apply Forall_app. split; [exact Hactive | repeat constructor].
    + exact Hactive.
    + unfold fundAccountProcedure, procedure.
      destruct (fundAccountSchema input) eqn:Hschema; [| exact Hactive].
      rewrite run_fundAccount by assumption.
      destruct (find _ (accounts s)) as [account |]; [| exact Hactive].
      destruct (String.eqb (acc_status account) "active"); [| exact Hactive].
      cbv zeta. cbn [snd accounts]. apply Forall_map.
      eapply Forall_impl; [| exact Hactive]. cbn beta.
      intros a Ha. now destruct (byId (fi_accountId input) a).
    + unfold getTransactionsProcedure, procedure.
      rewrite run_getTransactions. now destruct (find _ (accounts s)).
  - assert (Forall (fun t =>
                      tx_type t = "deposit"%string
                      /\ tx_status t = "completed"%string
                      /\ (0 <? tx_amount t)%float = true
                      /\ exists a, In a (accounts (serve s r)) /\ acc_id a = tx_accountId t)
                   (transactions s)) as Hold.
    { eapply Forall_impl; [| exact Hdeposits]. cbn beta.
      intros t (Htype & Hstatus & Hamount & Haccount).
      repeat split; try assumption.
      now apply (account_id_survives (accounts s) _ added). }
    unfold depositsOnly.
    destruct r as [user draws fuel accountType | user
                  | user dbNow jsNow input | user accountId]; cbn [serve] in *.
    + revert Hold. unfold createAccountProcedure, procedure.
      destruct (createAccount_store s user draws fuel accountType)
        as [-> | (n & _ & _ & ->)]; [tauto |].
      unfold Db.insertAccount. cbn [snd accounts transactions]. tauto.
    + exact Hold.
    + revert Hold. unfold fundAccountProcedure, procedure.
      destruct (fundAccountSchema input) eqn:Hschema; [| tauto].
      rewrite run_fundAccount by assumption.
      destruct (find _ (accounts s)) as [account |] eqn:Hfind; [| tauto].
      destruct (String.eqb (acc_status account) "active"); [| tauto].
      cbv zeta. cbn [snd accounts transactions]. intros Hold.
      apply Forall_app. split; [exact Hold |].
      constructor; [| constructor].
      unfold depositRow. cbn [tx_type tx_status tx_amount tx_accountId].
      repeat split; [now apply fundAccountSchema_amount |].
      apply find_some in Hfind as [Hin Hmatch].
      unfold byIdAndOwner in Hmatch. apply andb_prop in Hmatch as [Hid%Z.eqb_eq _].
      eexists. split; [apply in_map; exact Hin |].
      now destruct (byId (fi_accountId input) account).
    + revert Hold. unfold getTransactionsProcedure, procedure.
      rewrite run_getTransactions. now destruct (find _ (accounts s)).
Qed.

Lemma fold_serve_deposits_only (rs : list Request) :
  forall s,
    Forall (fun a => acc_status a = "active"%string) (accounts s) /\ depositsOnly s ->
    Forall (fun a => acc_status a = "active"%string) (accounts (fold_left serve rs s))
    /\ depositsOnly (fold_left serve rs s).
Proof.
  induction rs as [| r rs IH]; intros s Hinv; cbn [fold_left]; [exact Hinv |].
  apply IH. now apply serve_deposits_only.
Qed.

End AppendOnly.

(** X6.  The ledger is append-only: whatever requests are served one after
    the other, from any store, the transactions there before are still
    there, unchanged and in the same order, followed by at most one new
    transaction per request. *)
Theorem transactions_append_only (s : Store) (rs : list Request) :
  exists added,
    transactions (fold_left serve rs s) = transactions s ++ added
    /\ (List.length added <= List.length rs)%nat.
Proof.
  revert s. induction rs as [| r rs IH]; intros s; cbn [fold_left].
  - exists []. split; [now rewrite app_nil_r | cbn; lia].
  - destruct (IH (serve s r)) as (later & -> & Hlater).
    destruct (serve_appends s r) as (first & -> & Hfirst).
    exists (first ++ later). split; [now rewrite app_assoc |].
    rewrite length_app. cbn [List.length]. lia.
Qed.

(** X7.  Accounts are never deleted, and of an account only the balance is
    ever written: whatever requests are served, the id, owner, account
    number, type and status of the accounts there before are unchanged, in
    the same order; new accounts come after them. *)
Theorem accounts_keep_identity (s : Store) (rs : list Request) :
  exists added,
    map accountIdentity (accounts (fold_left serve rs s))
    = map accountIdentity (accounts s) ++ added.
Proof.
  revert s. induction rs as [| r rs IH]; intros s; cbn [fold_left].
  - exists []. now rewrite app_nil_r.
  - destruct (IH (serve s r)) as (later & ->).
    destruct (serve_keeps_identity s r) as (first & ->).
    exists (first ++ later). now rewrite app_assoc.
Qed.

(** X8.  After any sequence of requests served one after the other from the
    empty store, every account is 'active' and every transaction is a
    'completed' 'deposit' of an amount above zero into an account that
    exists; so no funding then fails with "Account is not active". *)
Theorem store_holds_active_accounts_and_deposits
    (rs : list Request) (user : Z) (dbNow jsNow : Timestamp) (input : FundInput) :
  Forall (fun a => acc_status a = "active"%string) (accounts (serveAll rs))
  /\ depositsOnly (serveAll rs)
  /\ fst (run (fundAccountProcedure user dbNow jsNow input) (serveAll rs))
     <> Err (TRPCError BAD_REQUEST "Account is not active").
Proof.
  assert (Forall (fun a => acc_status a = "active"%string) (accounts (serveAll rs))
          /\ depositsOnly (serveAll rs)) as [Hactive Hdeposits].
  { apply (fold_serve_deposits_only rs emptyStore).
    unfold depositsOnly, emptyStore. cbn [accounts transactions]. split; constructor. }
  repeat split; try assumption.
  unfold fundAccountProcedure, procedure.
  destruct (fundAccountSchema input) eqn:Hschema; [| discriminate].
  rewrite run_fundAccount by assumption.
  destruct (find _ (accounts (serveAll rs))) as [account |] eqn:Hfind; [| discriminate].
  apply find_some in Hfind as [Hin _].
  rewrite (proj1 (Forall_forall _ _) Hactive account Hin).
  discriminate.
Qed.

(* ===================================================================== *)
(** ** Properties: inputs the schema of fundAccount turns away *)
(* ===================================================================== *)

Section Rejections.

Local Open Scope float_scope.

(** Zero, a negative number and NaN are not above zero. *)
Lemma not_positive (x : float) :
  (x <=? 0) = true \/ is_nan x = true -> (0 <? x) = false.
Proof.
  unfold is_nan. rewrite ltb_spec, leb_spec, eqb_spec.
  change (Prim2SF 0) with (S754_zero false).
  destruct (Prim2SF x) as [sx | sx | | sx mx ex]; try destruct sx; cbn;
    intros [H | H]; try reflexivity; try discriminate.
  all: unfold SFeqb, SFcompare in H; cbn in H;
    rewrite ?Z.compare_refl, ?Pos.compare_cont_refl in H; cbn in H; discriminate.
Qed.

Lemma filter_matches_nothing {T : Type} (p : T -> bool) (l : list T) :
  (forall x, In x l -> p x = false) -> filter p l = [].
Proof.
  induction l as [| x l IH]; intros Hall; cbn [filter]; [reflexivity |].
  rewrite (Hall x (or_introl eq_refl)). apply IH. intros y Hy. apply Hall. now right.
Qed.

End Rejections.

(** X9.  [fundAccount] turns away, before its handler runs and without
    touching the store, an amount that is zero, negative or NaN, and a
    'bank' funding source whose routing number is absent or empty. *)
Theorem fundAccount_rejects_invalid_input
    (s : Store) (user : Z) (dbNow jsNow : Timestamp) (input : FundInput) :
  (fi_amount input <=? 0)%float = true
  \/ is_nan (fi_amount input) = true
  \/ (fs_type (fi_fundingSource input) = bank
      /\ (fs_routingNumber (fi_fundingSource input) = None
          \/ fs_routingNumber (fi_fundingSource input) = Some EmptyString)) ->
  run (fundAccountProcedure user dbNow jsNow input) s = (Err ZodError, s).
Proof.
  intros Hbad.
  assert (fundAccountSchema input = false) as Hschema.
  { unfold fundAccountSchema.
    destruct Hbad as [Hle | [Hnan | (Hbank & Hrouting)]].
    - now rewrite (not_positive _ (or_introl Hle)).
    - now rewrite (not_positive _ (or_intror Hnan)).
    - rewrite Hbank. destruct Hrouting as [-> | ->]; cbn; apply andb_false_r. }
  unfold fundAccountProcedure, procedure. now rewrite Hschema.
Qed.

Lemma fundAccount_rejects_invalid_input_witness :
  run (fundAccountProcedure 7 20 20
         (mkFundInput 1 50%float (mkFundingSource bank "000123456789" (Some EmptyString))))
      storeFundedOnce
  = (Err ZodError, storeFundedOnce).
Proof.
  apply (fundAccount_rejects_invalid_input storeFundedOnce 7 20 20
           (mkFundInput 1 50%float
              (mkFundingSource bank "000123456789" (Some EmptyString)))).
  right. right. split; [reflexivity | right; reflexivity].
Defined.

(** X10.  The first funding of an account returns the transaction it
    inserted: when the account has no transaction yet, the [transaction]
    of the result is the new row, a 'completed' 'deposit' of the amount. *)
Theorem fundAccount_first_funding_returns_its_transaction
    (s : Store) (user : Z) (dbNow jsNow : Timestamp) (input : FundInput) (a : Account) :
  uniqueIds s ->
  fundAccountSchema input = true ->
  In a (accounts s) ->
  acc_id a = fi_accountId input ->
  acc_userId a = user ->
  acc_status a = "active"%string ->
  (forall t, In t (transactions s) -> tx_accountId t <> fi_accountId input) ->
  exists r s',
    run (fundAccountProcedure user dbNow jsNow input) s = (Ok r, s')
    /\ fr_transaction r = Some (depositRow dbNow jsNow input s)
    /\ transactions s' = transactions s ++ [depositRow dbNow jsNow input s]
    /\ tx_amount (depositRow dbNow jsNow input s) = fi_amount input
    /\ tx_createdAt (depositRow dbNow jsNow input s) = dbNow.
Proof.
  intros Hids Hschema Hin Hid Huser Hactive Hfirst.
  rewrite run_fundAccountProcedure, run_fundAccount by assumption.
  assert (find (byIdAndOwner (fi_accountId input) user) (accounts s) = Some a) as ->
    by (rewrite <- Hid, <- Huser; now apply find_byIdAndOwner).
  rewrite Hactive. change (String.eqb "active" "active") with true. cbv iota zeta.
  do 2 eexists. split; [reflexivity |].
  cbn [fr_transaction transactions]. repeat split.
  rewrite filter_app.
  assert (filter (ofAccount (fi_accountId input)) (transactions s) = []) as ->.
  { apply filter_matches_nothing. intros t Ht. unfold ofAccount.
    destruct (Z.eqb_spec (tx_accountId t) (fi_accountId input)); [| reflexivity].
    now destruct (Hfirst t Ht). }
  cbn [filter app]. unfold ofAccount, depositRow at 1. cbn [tx_accountId].
  now rewrite Z.eqb_refl.
Qed.

Lemma fundAccount_first_funding_returns_its_transaction_witness :
  exists r s',
    run (fundAccountProcedure 7 10 10 (cardFunding 100%float)) storeOpened = (Ok r, s')
    /\ fr_transaction r = Some (depositRow 10 10 (cardFunding 100%float) storeOpened)
    /\ transactions s'
       = transactions storeOpened ++ [depositRow 10 10 (cardFunding 100%float) storeOpened]
    /\ tx_amount (depositRow 10 10 (cardFunding 100%float) storeOpened) = 100%float
    /\ tx_createdAt (depositRow 10 10 (cardFunding 100%float) storeOpened) = 10.
Proof.
  apply (fundAccount_first_funding_returns_its_transaction storeOpened 7 10 10
           (cardFunding 100%float)
           (mkAccount 1 7 "1234567890" checking 0%float "active")).
  - unfold uniqueIds. vm_compute. constructor; [intros [] | constructor].
  - reflexivity.
  - left. reflexivity.
  - reflexivity.
  - reflexivity.
  - reflexivity.
  - intros t [].
Defined.

(* ===================================================================== *)
(** ** Properties: numerals read back *)
(* ===================================================================== *)

Section ReadingBack.

Lemma digitChar_value (d : Z) :
  0 <= d < 10 -> Z.of_nat (nat_of_ascii (Js.digitChar d)) - 48 = d.
Proof.
  intros Hd.
  assert (d = 0 \/ d = 1 \/ d = 2 \/ d = 3 \/ d = 4 \/ d = 5 \/ d = 6 \/
          d = 7 \/ d = 8 \/ d = 9) as Hcases by lia.
  repeat (destruct Hcases as [-> | Hcases]; [reflexivity |]).
  subst d. reflexivity.
Qed.

Lemma decimalValue_digit (d : Z) (rest : string) :
  0 <= d < 10 ->
  decimalValue (String (Js.digitChar d) rest)
  = d * 10 ^ Z.of_nat (String.length rest) + decimalValue rest.
Proof. intros Hd. cbn [decimalValue]. now rewrite digitChar_value. Qed.

(** The digits written in front of [acc] denote [n], shifted past [acc]. *)
Lemma decimalValue_digitsOf (fuel : nat) :
  forall n acc,
    0 <= n < 10 ^ Z.of_nat (S fuel) ->
    decimalValue (Js.digitsOf fuel n acc)
    = n * 10 ^ Z.of_nat (String.length acc) + decimalValue acc.
Proof.
  induction fuel as [| fuel IH]; intros n acc Hn.
  - change (10 ^ Z.of_nat 1) with 10 in Hn.
    cbn [Js.digitsOf]. rewrite decimalValue_digit by (apply Z.mod_pos_bound; lia).
    now rewrite Z.mod_small by lia.
  - cbn [Js.digitsOf]. destruct (Z.ltb_spec n 10) as [Hsmall | Hbig].
    + rewrite decimalValue_digit by (apply Z.mod_pos_bound; lia).
      now rewrite Z.mod_small by lia.
    + assert (10 ^ Z.of_nat (S (S fuel)) = 10 * 10 ^ Z.of_nat (S fuel)) as Hpow
        by (rewrite (Nat2Z.inj_succ (S fuel)), Z.pow_succ_r; lia).
      rewrite IH.
      * rewrite decimalValue_digit by (apply Z.mod_pos_bound; lia).
        cbn [String.length]. rewrite Nat2Z.inj_succ, Z.pow_succ_r by lia.
        pose proof (Z.div_mod n 10 ltac:(lia)) as Hdivmod.
        generalize dependent (n / 10). generalize dependent (n mod 10).
        intros m q Hdivmod.
        transitivity ((10 * q + m) * 10 ^ Z.of_nat (String.length acc) + decimalValue acc);
          [ring | now rewrite <- Hdivmod].
      * split; [apply Z.div_pos; lia | apply Z.div_lt_upper_bound; lia].
Qed.

(** The numeral of a non-negative integer denotes that integer. *)
Lemma decimalValue_integerToString (n : Z) :
  0 <= n -> decimalValue (Js.integerToString n) = n.
Proof.
  intros Hn. unfold Js.integerToString.
  destruct (Z.ltb_spec n 0); [lia |].
  rewrite decimalValue_digitsOf.
  - cbn [String.length decimalValue]. change (10 ^ Z.of_nat 0) with 1. lia.
  - split; [exact Hn |].
    destruct (Z.eq_dec n 0) as [-> | Hpos]; [apply Z.pow_pos_nonneg; lia |].
    pose proof (Z.log2_spec n ltac:(lia)) as [_ Hlog].
    pose proof (Z.log2_nonneg n) as Hnonneg.
    rewrite !Nat2Z.inj_succ, Z2Nat.id by exact Hnonneg.
    assert (2 ^ Z.succ (Z.log2 n) <= 10 ^ Z.succ (Z.log2 n)) as Hbase
      by (apply Z.pow_le_mono_l; lia).
    assert (10 ^ Z.succ (Z.log2 n) <= 10 ^ Z.succ (Z.succ (Z.log2 n))) as Hexp
      by (apply Z.pow_le_mono_r; lia).
    lia.
Qed.

End ReadingBack.

(** X11.  Different integers give different account numbers: two draws of
    [crypto.randomInt] that differ yield different strings, so comparing
    account numbers as strings, as the uniqueness check of [createAccount]
    does, compares the numbers drawn. *)
Theorem generateAccountNumber_injective (r1 r2 : Z) :
  0 <= r1 -> 0 <= r2 -> r1 <> r2 ->
  generateAccountNumber r1 <> generateAccountNumber r2.
Proof.
  unfold generateAccountNumber. intros H1 H2 Hne Heq. apply Hne.
  rewrite <- (decimalValue_integerToString r1 H1), <- (decimalValue_integerToString r2 H2).
  now rewrite Heq.
Qed.

Lemma generateAccountNumber_injective_witness :
  generateAccountNumber 1000000000 <> generateAccountNumber 9999999998.
Proof.
  apply (generateAccountNumber_injective 1000000000 9999999998); lia.
Defined.

(* ===================================================================== *)
(** ** Properties: the signup form *)
(* ===================================================================== *)

Section SignupForm.

Lemma Text_eqb_eq (a b : Auth.Text) : Auth.Text_eqb a b = true <-> a = b.
Proof.
  revert b. induction a as [| x a IH]; intros [| y b]; cbn [Auth.Text_eqb];
    try (split; [discriminate | discriminate]); [tauto |].
  rewrite andb_true_iff, Z.eqb_eq, IH. split.
  - now intros [-> ->].
  - now intros [= -> ->].
Qed.

Lemma Text_eqb_refl (a : Auth.Text) : Auth.Text_eqb a a = true.
Proof. now apply Text_eqb_eq. Qed.

Lemma includes_In (l : list Auth.Text) (val : Auth.Text) :
  Auth.includes l val = true -> In val l.
Proof.
  unfold Auth.includes. intros (x & Hx & Heq)%existsb_exists.
  apply Text_eqb_eq in Heq. now subst.
Qed.

(** Every entry of [US_STATES] is two upper-case letters. *)
Lemma US_STATES_shape :
  Forall (fun st => List.length st = 2%nat /\ forallb Auth.isUpper st = true)
         Auth.US_STATES.
Proof. repeat (constructor; [split; reflexivity |]). constructor. Qed.

(** The schema hands the email on as submitted. *)
Lemma signupSchema_email
    (rt : Auth.Runtime) (today : Auth.DateFields) (input parsed : Auth.SignupInput) :
  Auth.signupSchema rt today input = Some parsed ->
  Auth.si_email parsed = Auth.si_email input.
Proof.
  unfold Auth.signupSchema.
  destruct (_ && _); [| discriminate].
  destruct (Auth.parseState rt _); [| discriminate].
  now intros [= <-].
Qed.

(** The schema accepts only what zod's email test accepts. *)
Lemma signupSchema_isEmail
    (rt : Auth.Runtime) (today : Auth.DateFields) (input parsed : Auth.SignupInput) :
  Auth.signupSchema rt today input = Some parsed ->
  Auth.isEmail rt (Auth.si_email input) = true.
Proof.
  unfold Auth.signupSchema.
  destruct (Auth.isEmail rt (Auth.si_email input)); [reflexivity | discriminate].
Qed.

End SignupForm.

(** X12.  The date-of-birth check of [signup] raises no issue exactly when
    the string does not parse as a date at all, or it parses to an instant
    before now whose eighteenth anniversary, by calendar year, month and
    day, is today or earlier. *)
Theorem dateOfBirth_accepted_iff (birthDate : Auth.JsDate) (today : Auth.DateFields) :
  Auth.dateOfBirthIssues birthDate (Some today) = []
  <-> birthDate = None
      \/ exists b, birthDate = Some b
                   /\ Auth.timeValue b < Auth.timeValue today
                   /\ Auth.eighteenByCalendar b today.
Proof.
  unfold Auth.dateOfBirthIssues, Auth.eighteenByCalendar.
  destruct birthDate as [b |]; cbn; [| tauto].
  split.
  - intros Hnone. right. exists b. split; [reflexivity |]. revert Hnone.
    destruct (Z.leb_spec (Auth.timeValue today) (Auth.timeValue b)); [discriminate |].
    destruct (Z.ltb_spec (Auth.month today - Auth.month b) 0); cbn.
    + destruct (Z.ltb_spec (Auth.fullYear today - Auth.fullYear b - 1) 18);
        [discriminate | intros _; lia].
    + destruct (Z.eqb_spec (Auth.month today - Auth.month b) 0); cbn.
      * destruct (Z.ltb_spec (Auth.date today) (Auth.date b)); cbn.
        -- destruct (Z.ltb_spec (Auth.fullYear today - Auth.fullYear b - 1) 18);
             [discriminate | intros _; lia].
        -- destruct (Z.ltb_spec (Auth.fullYear today - Auth.fullYear b) 18);
             [discriminate | intros _; lia].
      * destruct (Z.ltb_spec (Auth.fullYear today - Auth.fullYear b) 18);
          [discriminate | intros _; lia].
  - intros [Hnone | (b' & [= <-] & Hpast & Hage)]; [discriminate |].
    destruct (Z.leb_spec (Auth.timeValue today) (Auth.timeValue b)); [lia |].
    destruct (Z.ltb_spec (Auth.month today - Auth.month b) 0); cbn.
    + destruct (Z.ltb_spec (Auth.fullYear today - Auth.fullYear b - 1) 18);
        [lia | reflexivity].
    + destruct (Z.eqb_spec (Auth.month today - Auth.month b) 0); cbn.
      * destruct (Z.ltb_spec (Auth.date today) (Auth.date b)); cbn.
        -- destruct (Z.ltb_spec (Auth.fullYear today - Auth.fullYear b - 1) 18);
             [lia | reflexivity].
        -- destruct (Z.ltb_spec (Auth.fullYear today - Auth.fullYear b) 18);
             [lia | reflexivity].
      * destruct (Z.ltb_spec (Auth.fullYear today - Auth.fullYear b) 18);
          [lia | reflexivity].
Qed.

(** X13.  An input the schema of [signup] accepts reaches the handler with
    its [state] upper-cased and equal to one of the fifty entries of
    [US_STATES], hence two upper-case letters, and with every other field
    as it was submitted. *)
Theorem signup_state_is_normalized
    (rt : Auth.Runtime) (today : Auth.DateFields) (input parsed : Auth.SignupInput) :
  Auth.signupSchema rt today input = Some parsed ->
  Auth.state (Auth.si_profile parsed)
  = Auth.toUpperCase rt (Auth.state (Auth.si_profile input))
  /\ In (Auth.state (Auth.si_profile parsed)) Auth.US_STATES
  /\ List.length (Auth.state (Auth.si_profile parsed)) = 2%nat
  /\ forallb Auth.isUpper (Auth.state (Auth.si_profile parsed)) = true
  /\ parsed
     = Auth.mkSignupInput (Auth.si_email input) (Auth.si_password input)
         (Auth.si_ssn input)
         (Auth.mkProfile
            (Auth.firstName (Auth.si_profile input))
            (Auth.lastName (Auth.si_profile input))
            (Auth.phoneNumber (Auth.si_profile input))
            (Auth.dateOfBirth (Auth.si_profile input))
            (Auth.address (Auth.si_profile input))
            (Auth.city (Auth.si_profile input))
            (Auth.state (Auth.si_profile parsed))
            (Auth.zipCode (Auth.si_profile input))).
Proof.
  unfold Auth.signupSchema.
  destruct (_ && _); [| discriminate].
  unfold Auth.parseState.
  destruct (List.length (Auth.state (Auth.si_profile input)) =? 2)%nat; [| discriminate].
  destruct (Auth.includes Auth.US_STATES _) eqn:Hincl; [| discriminate].
  intros [= <-]. cbn [Auth.si_profile Auth.state].
  apply includes_In in Hincl.
  pose proof (proj1 (Forall_forall _ _) US_STATES_shape _ Hincl) as [Hlen Hupper].
  repeat split; assumption.
Qed.

Lemma signup_state_is_normalized_witness :
  Auth.state (Auth.si_profile
                (Auth.mkSignupInput (Auth.si_email Auth.annsForm)
                   (Auth.si_password Auth.annsForm) (Auth.si_ssn Auth.annsForm)
                   (Auth.mkProfile (Auth.ofAscii "Ann") (Auth.ofAscii "Lee")
                      (Auth.ofAscii "+14155552671") (Auth.ofAscii "not a date")
                      (Auth.ofAscii "1 Main St") (Auth.ofAscii "Springfield")
                      (Auth.ofAscii "IL") (Auth.ofAscii "62701"))))
  = Auth.toUpperCase Auth.asciiRuntime (Auth.state (Auth.si_profile Auth.annsForm))
  /\ In (Auth.ofAscii "IL") Auth.US_STATES.
Proof.
  pose proof (signup_state_is_normalized Auth.asciiRuntime Auth.aDay Auth.annsForm
                (Auth.mkSignupInput (Auth.si_email Auth.annsForm)
                   (Auth.si_password Auth.annsForm) (Auth.si_ssn Auth.annsForm)
                   (Auth.mkProfile (Auth.ofAscii "Ann") (Auth.ofAscii "Lee")
                      (Auth.ofAscii "+14155552671") (Auth.ofAscii "not a date")
                      (Auth.ofAscii "1 Main St") (Auth.ofAscii "Springfield")
                      (Auth.ofAscii "IL") (Auth.ofAscii "62701")))
                eq_refl) as (Hstate & Hin & _).
  split; [exact Hstate | exact Hin].
Defined.

(* ===================================================================== *)
(** ** Properties: signing up, logging in, logging out *)
(* ===================================================================== *)

Section Sessions.

Variable rt : Auth.Runtime.

Lemma run_openSession (env : Auth.Env) (user : Auth.User) (s : Auth.AuthStore) :
  Auth.openSession env user s
  = (Auth.Done (Auth.mkOpened (Auth.withoutPassword user)
                  (Auth.sign env (Auth.user_id user))
                  (Auth.sessionCookie (Auth.sign env (Auth.user_id user)))),
     Auth.mkAuthStore (Auth.users s)
       (Auth.sessionsOfOthers (Auth.user_id user) s ++ [Auth.openedSession env s user])
       (Auth.userSeq s) (Auth.sessionSeq s + 1)).
Proof. reflexivity. Qed.

(** The handler of [signup], case by case. *)
Lemma run_signup (env : Auth.Env) (input : Auth.SignupInput) (s : Auth.AuthStore) :
  Auth.signup rt env input s
  = let normalizedEmail := Auth.normalizeEmail rt (Auth.si_email input) in
    if existsb (fun t => Auth.endsWith normalizedEmail t) Auth.commonTypos
    then (Auth.Failed Auth.BAD_REQUEST "Email domain looks incorrect. Did you mean .com?", s)
    else match find (Auth.byEmail normalizedEmail) (Auth.users s) with
         | Some _ => (Auth.Failed Auth.CONFLICT "User already exists", s)
         | None =>
             let user := Auth.mkUser (Auth.userSeq s + 1) normalizedEmail
                           (Auth.hashedPassword env) (Auth.hashedSSN env)
                           (Auth.si_profile input) in
             Auth.openSession env user
               (Auth.mkAuthStore (Auth.users s ++ [user]) (Auth.sessions s)
                  (Auth.userSeq s + 1) (Auth.sessionSeq s))
         end.
Proof.
  unfold Auth.signup. cbv zeta.
  destruct (existsb _ Auth.commonTypos); [reflexivity |].
  unfold Auth.andThen at 1, Auth.selectUser at 1.
  destruct (find _ (Auth.users s)) eqn:Hfind; [reflexivity |].
  unfold Auth.andThen at 1, Auth.insertUser.
  unfold Auth.andThen at 1, Auth.selectUser. cbn [Auth.users].
  rewrite find_app_none; [reflexivity | exact Hfind |].
  unfold Auth.byEmail. cbn [Auth.user_email]. apply Text_eqb_refl.
Qed.

(** The handler of [login], case by case. *)
Lemma run_login (env : Auth.Env) (input : Auth.LoginInput) (s : Auth.AuthStore) :
  Auth.login rt env input s
  = match find (Auth.byEmail (Auth.normalizeEmail rt (Auth.li_email input)))
               (Auth.users s) with
    | None => (Auth.Failed Auth.UNAUTHORIZED "Invalid credentials", s)
    | Some user =>
        if Auth.bcryptCompare rt (Auth.li_password input) (Auth.user_password user)
        then Auth.openSession env user s
        else (Auth.Failed Auth.UNAUTHORIZED "Invalid credentials", s)
    end.
Proof.
  unfold Auth.login. cbv zeta. unfold Auth.andThen at 1, Auth.selectUser.
  destruct (find _ (Auth.users s)) as [user |]; [| reflexivity].
  now destruct (Auth.bcryptCompare rt _ _).
Qed.

Lemma find_byEmail (s : Auth.AuthStore) (u : Auth.User) :
  NoDup (map Auth.user_email (Auth.users s)) ->
  In u (Auth.users s) ->
  find (Auth.byEmail (Auth.user_email u)) (Auth.users s) = Some u.
Proof.
  intros Hnodup Hin. revert Hnodup Hin.
  induction (Auth.users s) as [| x l IH]; [contradiction |].
  cbn [map find]. intros Hnodup [-> | Hin].
  - unfold Auth.byEmail. now rewrite Text_eqb_refl.
  - inversion Hnodup as [| ? ? Hnotin Hrest]; subst.
    unfold Auth.byEmail at 1.
    destruct (Auth.Text_eqb (Auth.user_email x) (Auth.user_email u)) eqn:Heq.
    + apply Text_eqb_eq in Heq. exfalso. apply Hnotin. rewrite Heq. now apply in_map.
    + now apply IH.
Qed.

Lemma find_byEmail_none (s : Auth.AuthStore) (email : Auth.Text) :
  (forall u, In u (Auth.users s) -> Auth.user_email u <> email) ->
  find (Auth.byEmail email) (Auth.users s) = None.
Proof.
  intros Hno. apply find_matches_nothing. intros u Hu. unfold Auth.byEmail.
  destruct (Auth.Text_eqb (Auth.user_email u) email) eqn:Heq; [| reflexivity].
  apply Text_eqb_eq in Heq. now destruct (Hno u Hu).
Qed.

End Sessions.

(** X14.  [login] answers an email nobody registered and a wrong password
    for a registered email alike: UNAUTHORIZED "Invalid credentials", and
    the store, sessions included, is as before. *)
Theorem login_invalid_credentials
    (rt : Auth.Runtime) (env : Auth.Env) (input : Auth.LoginInput) (s : Auth.AuthStore) :
  NoDup (map Auth.user_email (Auth.users s)) ->
  Auth.isEmail rt (Auth.li_email input) = true ->
  (forall u, In u (Auth.users s) ->
             Auth.user_email u <> Auth.normalizeEmail rt (Auth.li_email input))
  \/ (exists u, In u (Auth.users s)
                /\ Auth.user_email u = Auth.normalizeEmail rt (Auth.li_email input)
                /\ Auth.bcryptCompare rt (Auth.li_password input) (Auth.user_password u)
                   = false) ->
  Auth.loginProcedure rt env input s
  = (Auth.Failed Auth.UNAUTHORIZED "Invalid credentials", s).
Proof.
  intros Hnodup Hemail Hcase.
  unfold Auth.loginProcedure. rewrite Hemail, run_login.
  destruct Hcase as [Hnone | (u & Hin & Hu & Hwrong)].
  - now rewrite find_byEmail_none.
  - rewrite <- Hu, find_byEmail by assumption. now rewrite Hwrong.
Qed.

Lemma login_invalid_credentials_witness :
  Auth.loginProcedure Auth.asciiRuntime Auth.annsLoginEnv
    (Auth.mkLoginInput (Auth.ofAscii "ann@example.com") (Auth.ofAscii "passw0rd!"))
    Auth.annSignedUp
  = (Auth.Failed Auth.UNAUTHORIZED "Invalid credentials", Auth.annSignedUp).
Proof.
  apply (login_invalid_credentials Auth.asciiRuntime Auth.annsLoginEnv
           (Auth.mkLoginInput (Auth.ofAscii "ann@example.com") (Auth.ofAscii "passw0rd!"))
           Auth.annSignedUp).
  - vm_compute. constructor; [intros [] | constructor].
  - reflexivity.
  - right. eexists. split; [left; reflexivity |]. split; reflexivity.
Defined.

Section Consistency.

Variable rt : Auth.Runtime.

Lemma sessionsOfOthers_userIds (userId : Z) (s : Auth.AuthStore) :
  map Auth.sess_userId (Auth.sessionsOfOthers userId s)
  = filter (fun i => negb (i =? userId)) (map Auth.sess_userId (Auth.sessions s)).
Proof.
  unfold Auth.sessionsOfOthers.
  induction (Auth.sessions s) as [| x l IH]; cbn [filter map]; [reflexivity |].
  destruct (Auth.sess_userId x =? userId); cbn [negb map]; now rewrite IH.
Qed.

(** Deleting a user's sessions keeps the store consistent. *)
Lemma deleteSessions_consistent (userId : Z) (s : Auth.AuthStore) :
  Auth.consistent s -> Auth.consistent (snd (Auth.deleteSessions userId s)).
Proof.
  intros (Hemails & Hids & Hsessions & Hrefs & Hseq).
  unfold Auth.consistent, Auth.deleteSessions. cbn [snd Auth.users Auth.sessions Auth.userSeq].
  repeat split; try assumption.
  - fold (Auth.sessionsOfOthers userId s). rewrite sessionsOfOthers_userIds.
    now apply NoDup_filter.
  - apply Forall_forall. intros x [Hx _]%filter_In.
    exact (proj1 (Forall_forall _ _) Hrefs x Hx).
Qed.

(** Opening a session for a user of the store keeps it consistent. *)
Lemma openSession_consistent (env : Auth.Env) (user : Auth.User) (s : Auth.AuthStore) :
  In user (Auth.users s) ->
  Auth.consistent s -> Auth.consistent (snd (Auth.openSession env user s)).
Proof.
  intros Hin (Hemails & Hids & Hsessions & Hrefs & Hseq).
  rewrite run_openSession.
  unfold Auth.consistent. cbn [snd Auth.users Auth.sessions Auth.userSeq].
  repeat split; try assumption.
  - rewrite map_app, sessionsOfOthers_userIds. apply NoDup_app.
    + now apply NoDup_filter.
    + repeat constructor. intros [].
    + intros i [_ Hi]%filter_In [<- | []].
      cbn [Auth.openedSession Auth.sess_userId] in Hi. now rewrite Z.eqb_refl in Hi.
  - apply Forall_app. split.
    + apply Forall_forall. intros x [Hx _]%filter_In.
      exact (proj1 (Forall_forall _ _) Hrefs x Hx).
    + constructor; [| constructor]. now exists user.
Qed.

Lemma serve_consistent (s : Auth.AuthStore) (r : Auth.Request) :
  Auth.consistent s -> Auth.consistent (Auth.serve rt s r).
Proof.
  intros Hcons. destruct r as [today env input | env input | ctxUser]; cbn [Auth.serve].
  - unfold Auth.signupProcedure.
    destruct (Auth.signupSchema rt today input) as [parsed |]; [| exact Hcons].
    rewrite run_signup. cbv zeta.
    destruct (existsb _ Auth.commonTypos); [exact Hcons |].
    destruct (find _ (Auth.users s)) eqn:Hfind; [exact Hcons |].
    apply openSession_consistent.
    + cbn [Auth.users]. apply in_or_app. right. now left.
    + destruct Hcons as (Hemails & Hids & Hsessions & Hrefs & Hseq).
      unfold Auth.consistent. cbn [Auth.users Auth.sessions Auth.userSeq].
      repeat split.
      * apply NoDup_map_snoc; [exact Hemails |].
        intros u Hu. cbn [Auth.user_email].
        pose proof (find_none _ _ Hfind u Hu) as Hno. unfold Auth.byEmail in Hno.
        intros Heq. apply Text_eqb_eq in Heq. congruence.
      * apply NoDup_map_snoc; [exact Hids |].
        intros u Hu. cbn [Auth.user_id].
        pose proof (proj1 (Forall_forall _ _) Hseq u Hu) as Hle. cbn beta in Hle. lia.
      * exact Hsessions.
      * eapply Forall_impl; [| exact Hrefs]. cbn beta.
        intros x (u & Hu & Hid). exists u. split; [| exact Hid].
        apply in_or_app. now left.
      * apply Forall_app. split.
        -- eapply Forall_impl; [| exact Hseq]. cbn beta. intros; lia.
        -- constructor; [cbn [Auth.user_id]; lia | constructor].
  - unfold Auth.loginProcedure.
    destruct (Auth.isEmail rt (Auth.li_email input)); [| exact Hcons].
    rewrite run_login.
    destruct (find _ (Auth.users s)) as [user |] eqn:Hfind; [| exact Hcons].
    destruct (Auth.bcryptCompare rt _ _); [| exact Hcons].
    apply openSession_consistent; [| exact Hcons].
    now apply find_some in Hfind as [Hin _].
  - destruct ctxUser as [userId |]; [| exact Hcons].
    now apply (deleteSessions_consistent userId).
Qed.

End Consistency.

(** X15.  After any sequence of [signup], [login] and [logout] requests
    served one after the other from the empty store, no two users share an
    email or an id, no user has more than one session, and every session
    belongs to a user of the store. *)
Theorem auth_store_consistent (rt : Auth.Runtime) (rs : list Auth.Request) :
  Auth.consistent (Auth.serveAll rt rs).
Proof.
  unfold Auth.serveAll.
  assert (Auth.consistent Auth.emptyAuthStore) as Hempty
    by (unfold Auth.consistent, Auth.emptyAuthStore; cbn; repeat split; constructor).
  revert Hempty. generalize Auth.emptyAuthStore.
  induction rs as [| r rs IH]; intros s Hcons; cbn [fold_left]; [exact Hcons |].
  apply IH. now apply serve_consistent.
Qed.



(** X17.  Signing up and then logging in with the same email and password
    succeeds, provided [bcrypt.compare] accepts the password against the
    hash stored at signup: [login] returns the user [signup] created, and
    replaces the session [signup] opened by one with the new token. *)
Theorem login_after_signup
    (rt : Auth.Runtime) (today : Auth.DateFields) (env env' : Auth.Env)
    (input : Auth.SignupInput) (s s1 : Auth.AuthStore) (opened : Auth.Opened) :
  Auth.signupProcedure rt today env input s = (Auth.Done opened, s1) ->
  Auth.bcryptCompare rt (Auth.si_password input) (Auth.hashedPassword env) = true ->
  exists opened' s2,
    Auth.loginProcedure rt env'
      (Auth.mkLoginInput (Auth.si_email input) (Auth.si_password input)) s1
    = (Auth.Done opened', s2)
    /\ Auth.op_user opened' = Auth.op_user opened
    /\ Auth.op_token opened' = Auth.sign env' (Auth.ru_id (Auth.op_user opened))
    /\ Auth.users s2 = Auth.users s1
    /\ filter (fun x => Auth.sess_userId x =? Auth.ru_id (Auth.op_user opened))
              (Auth.sessions s2)
       = [Auth.mkSession (Auth.sessionSeq s1 + 1) (Auth.ru_id (Auth.op_user opened))
            (Auth.op_token opened') (Auth.expiresAt env')].
Proof.
  unfold Auth.signupProcedure.
  destruct (Auth.signupSchema rt today input) as [parsed |] eqn:Hschema; [| discriminate].
  pose proof (signupSchema_isEmail rt today input parsed Hschema) as Hemail.
  rewrite run_signup. cbv zeta.
  rewrite (signupSchema_email rt today input parsed Hschema).
  destruct (existsb _ Auth.commonTypos); [discriminate |].
  destruct (find _ (Auth.users s)) eqn:Hfind; [discriminate |].
  rewrite run_openSession. intros [= <- <-] Hcompare.
  unfold Auth.loginProcedure. cbn [Auth.li_email Auth.li_password].
  rewrite Hemail, run_login. cbn [Auth.li_email Auth.li_password Auth.users].
  rewrite find_app_none;
    [| exact Hfind | unfold Auth.byEmail; cbn [Auth.user_email]; apply Text_eqb_refl].
  cbn [Auth.user_password]. rewrite Hcompare, run_openSession.
  do 2 eexists. split; [reflexivity |].
  cbn [Auth.op_user Auth.op_token Auth.users Auth.sessions Auth.withoutPassword
       Auth.ru_id Auth.user_id].
  repeat split.
  rewrite filter_app. unfold Auth.sessionsOfOthers at 1. cbn [Auth.user_id].
  rewrite filter_matches_nothing.
  - cbn [filter app Auth.openedSession Auth.sess_userId Auth.user_id].
    now rewrite Z.eqb_refl.
  - intros x [_ Hx]%filter_In. now destruct (Auth.sess_userId x =? Auth.userSeq s + 1).
Qed.

Lemma login_after_signup_witness :
  exists opened' s2,
    Auth.loginProcedure Auth.asciiRuntime Auth.annsLoginEnv
      (Auth.mkLoginInput (Auth.si_email Auth.annsForm) (Auth.si_password Auth.annsForm))
      Auth.annSignedUp
    = (Auth.Done opened', s2)
    /\ Auth.op_token opened' = Auth.ofAscii "token-b-1"
    /\ map Auth.sess_token (Auth.sessions s2) = [Auth.ofAscii "token-b-1"].
Proof.
  destruct (login_after_signup Auth.asciiRuntime Auth.aDay Auth.annsSignupEnv
              Auth.annsLoginEnv Auth.annsForm Auth.emptyAuthStore Auth.annSignedUp
              (Auth.mkOpened
                 (Auth.mkReturnedUser 1 (Auth.ofAscii "ann@example.com")
                    (36 :: Auth.ofAscii "123456789")
                    (Auth.mkProfile (Auth.ofAscii "Ann") (Auth.ofAscii "Lee")
                       (Auth.ofAscii "+14155552671") (Auth.ofAscii "not a date")
                       (Auth.ofAscii "1 Main St") (Auth.ofAscii "Springfield")
                       (Auth.ofAscii "IL") (Auth.ofAscii "62701")))
                 (Auth.ofAscii "token-a-1")
                 (Auth.sessionCookie (Auth.ofAscii "token-a-1")))
              eq_refl eq_refl)
    as (opened' & s2 & Hrun & _ & Htoken & _ & _).
  exists opened', s2. split; [exact Hrun |]. split; [exact Htoken |].
  revert Hrun. vm_compute. now intros [= <- <-].
Defined.

(** X18.  [logout] always answers success.  For a signed-in caller it
    deletes every session of that user and no other, whatever cookie the
    request carried; without a signed-in caller it changes nothing and says
    "No active session".  Users are never touched. *)
Theorem logout_closes_the_callers_sessions (s : Auth.AuthStore) (ctxUser : option Z) :
  exists answer s',
    Auth.logout ctxUser s = (Auth.Done answer, s')
    /\ Auth.lo_success answer = true
    /\ Auth.lo_message answer
       = match ctxUser with
         | Some _ => "Logged out successfully"%string
         | None => "No active session"%string
         end
    /\ Auth.users s' = Auth.users s
    /\ match ctxUser with
       | Some userId =>
           (forall x, In x (Auth.sessions s') <->
                      In x (Auth.sessions s) /\ Auth.sess_userId x <> userId)
       | None => s' = s
       end.
Proof.
  destruct ctxUser as [userId |].
  - do 2 eexists. split; [reflexivity |].
    cbn [Auth.lo_success Auth.lo_message Auth.users Auth.sessions].
    do 3 (split; [reflexivity |]).
    intros x. rewrite filter_In.
    destruct (Z.eqb_spec (Auth.sess_userId x) userId); cbn [negb]; intuition congruence.
  - do 2 eexists. repeat split.
Qed.

Section Refusals.

Lemma endsWith_app (prefix suffix : Auth.Text) :
  Auth.endsWith (prefix ++ suffix) suffix = true.
Proof.
  unfold Auth.endsWith. rewrite length_app, Nat.add_sub.
  rewrite skipn_app, Nat.sub_diag, skipn_all. cbn [skipn app].
  apply Text_eqb_refl.
Qed.

End Refusals.

(** X19.  [signup] refuses, with BAD_REQUEST "Email domain looks incorrect.
    Did you mean .com?" and without reading or changing the store, every
    accepted form whose normalised email ends in ".con", ".cmo", ".cim" or
    ".cm", whether or not the email is registered. *)
Theorem signup_refuses_typo_endings
    (rt : Auth.Runtime) (today : Auth.DateFields) (env : Auth.Env)
    (input parsed : Auth.SignupInput) (s : Auth.AuthStore)
    (prefix ending : Auth.Text) :
  Auth.signupSchema rt today input = Some parsed ->
  In ending (map Auth.ofAscii [".con"; ".cmo"; ".cim"; ".cm"]%string) ->
  Auth.normalizeEmail rt (Auth.si_email input) = prefix ++ ending ->
  Auth.signupProcedure rt today env input s
  = (Auth.Failed Auth.BAD_REQUEST "Email domain looks incorrect. Did you mean .com?", s).
Proof.
  intros Hschema Hending Hemail.
  unfold Auth.signupProcedure. rewrite Hschema, run_signup. cbv zeta.
  rewrite (signupSchema_email rt today input parsed Hschema), Hemail.
  assert (existsb (fun t => Auth.endsWith (prefix ++ ending) t) Auth.commonTypos = true)
    as ->; [| reflexivity].
  apply existsb_exists. exists ending. split; [exact Hending | apply endsWith_app].
Qed.

Lemma signup_refuses_typo_endings_witness :
  Auth.signupProcedure Auth.asciiRuntime Auth.aDay Auth.annsSignupEnv
    (Auth.mkSignupInput (Auth.ofAscii "Ann@Example.cm") (Auth.si_password Auth.annsForm)
       (Auth.si_ssn Auth.annsForm) (Auth.si_profile Auth.annsForm))
    Auth.annSignedUp
  = (Auth.Failed Auth.BAD_REQUEST "Email domain looks incorrect. Did you mean .com?",
     Auth.annSignedUp).
Proof.
  apply (signup_refuses_typo_endings Auth.asciiRuntime Auth.aDay Auth.annsSignupEnv
           (Auth.mkSignupInput (Auth.ofAscii "Ann@Example.cm")
              (Auth.si_password Auth.annsForm) (Auth.si_ssn Auth.annsForm)
              (Auth.si_profile Auth.annsForm))
           (Auth.mkSignupInput (Auth.ofAscii "Ann@Example.cm")
              (Auth.si_password Auth.annsForm) (Auth.si_ssn Auth.annsForm)
              (Auth.mkProfile (Auth.ofAscii "Ann") (Auth.ofAscii "Lee")
                 (Auth.ofAscii "+14155552671") (Auth.ofAscii "not a date")
                 (Auth.ofAscii "1 Main St") (Auth.ofAscii "Springfield")
                 (Auth.ofAscii "IL") (Auth.ofAscii "62701")))
           Auth.annSignedUp (Auth.ofAscii "ann@example") (Auth.ofAscii ".cm")).
  - reflexivity.
  - right. right. right. left. reflexivity.
  - reflexivity.
Defined.

(** X20.  [signup] with an accepted form whose normalised email is that of
    a registered user (and has none of the refused endings) fails with
    CONFLICT "User already exists" and leaves users and sessions as they
    were. *)
Theorem signup_refuses_registered_email
    (rt : Auth.Runtime) (today : Auth.DateFields) (env : Auth.Env)
    (input parsed : Auth.SignupInput) (s : Auth.AuthStore) (u : Auth.User) :
  Auth.signupSchema rt today input = Some parsed ->
  existsb (fun t => Auth.endsWith (Auth.normalizeEmail rt (Auth.si_email input)) t)
          Auth.commonTypos = false ->
  In u (Auth.users s) ->
  Auth.user_email u = Auth.normalizeEmail rt (Auth.si_email input) ->
  Auth.signupProcedure rt today env input s
  = (Auth.Failed Auth.CONFLICT "User already exists", s).
Proof.
  intros Hschema Htypos Hin Hemail.
  unfold Auth.signupProcedure. rewrite Hschema, run_signup. cbv zeta.
  rewrite (signupSchema_email rt today input parsed Hschema), Htypos.
  destruct (find _ (Auth.users s)) eqn:Hfind; [reflexivity |].
  pose proof (find_none _ _ Hfind u Hin) as Hno. unfold Auth.byEmail in Hno.
  rewrite Hemail, Text_eqb_refl in Hno. discriminate.
Qed.

Lemma signup_refuses_registered_email_witness :
  Auth.signupProcedure Auth.asciiRuntime Auth.aDay Auth.annsLoginEnv
    (Auth.mkSignupInput (Auth.ofAscii "  ANN@example.COM ") (Auth.si_password Auth.annsForm)
       (Auth.si_ssn Auth.annsForm) (Auth.si_profile Auth.annsForm))
    Auth.annSignedUp
  = (Auth.Failed Auth.CONFLICT "User already exists", Auth.annSignedUp).
Proof.
  apply (signup_refuses_registered_email Auth.asciiRuntime Auth.aDay Auth.annsLoginEnv
           (Auth.mkSignupInput (Auth.ofAscii "  ANN@example.COM ")
              (Auth.si_password Auth.annsForm) (Auth.si_ssn Auth.annsForm)
              (Auth.si_profile Auth.annsForm))
           (Auth.mkSignupInput (Auth.ofAscii "  ANN@example.COM ")
              (Auth.si_password Auth.annsForm) (Auth.si_ssn Auth.annsForm)
              (Auth.mkProfile (Auth.ofAscii "Ann") (Auth.ofAscii "Lee")
                 (Auth.ofAscii "+14155552671") (Auth.ofAscii "not a date")
                 (Auth.ofAscii "1 Main St") (Auth.ofAscii "Springfield")
                 (Auth.ofAscii "IL") (Auth.ofAscii "62701")))
           Auth.annSignedUp
           (Auth.mkUser 1 (Auth.ofAscii "ann@example.com") (36 :: Auth.ofAscii "Passw0rd!")
              (36 :: Auth.ofAscii "123456789")
              (Auth.mkProfile (Auth.ofAscii "Ann") (Auth.ofAscii "Lee")
                 (Auth.ofAscii "+14155552671") (Auth.ofAscii "not a date")
                 (Auth.ofAscii "1 Main St") (Auth.ofAscii "Springfield")
                 (Auth.ofAscii "IL") (Auth.ofAscii "62701")))).
  - reflexivity.
  - reflexivity.
  - left. reflexivity.
  - reflexivity.
Defined.
